(** * Event wiring of the Gradio control panel

    A shallow embedding of [acestep/ui/gradio/events/__init__.py]:
    [setup_event_handlers] and [setup_training_event_handlers].

    The two functions are register-time glue.  They build a wiring
    context, look widgets up in the component maps, and call registration
    helpers of the sibling module [wiring] and listener methods of the UI
    toolkit.  The embedding keeps that shape:

    - Python objects (widgets, handlers, the root container) are object
      identities; a component map is a finite map from key strings to
      widgets, and [d[k]] on it raises [KeyError] when [k] is absent;
    - the code runs in a state-and-exception monad.  The state is the
      world the helpers act on (the event graph and the object store)
      together with the log of the calls the setup function has made;
    - the helpers of [wiring] and the callbacks of [generation_handlers]
      are not part of this file's source: they are parameters, grouped in
      the records [Wiring] and [GenerationHandlers], and may do anything
      to the world, return anything, or raise.
    - lists and maps are passed to the helpers as values: the setup
      functions never assign into them, and the helpers are taken not to
      either. *)

From stdpp Require Import gmap strings list fin_maps.

(** ** Values, exceptions, widgets *)

(** Identity of a Python object. *)
Definition ObjId := nat.
Definition Component := ObjId.
Definition Handler := ObjId.

(** Run-time values that flow through callbacks and come back from calls. *)
Inductive Value :=
| VNone
| VBool (b : bool)
| VInt (z : Z)
| VStr (s : string).

Inductive Exn :=
| KeyError (key : string)
| TypeError (msg : string)
| AttributeError (msg : string)
| RuntimeError (msg : string).

(** A callback receives the values of its input widgets positionally and
    returns the tuple of values for its output widgets, or raises. *)
Definition Callback := list Value -> Exn + list Value.

Inductive EventName := Upload | Click | Change.

Inductive Trigger :=
| OnEvent (target : Component) (ev : EventName)
| AfterDependency (dep : nat).

Record Binding := {
  b_trigger : Trigger;
  b_fn : Callback;
  b_inputs : list Component;
  b_outputs : list Component
}.

(** What a listener method returns: the handle [.then] is called on. *)
Record Dependency := {
  dep_id : nat;
  dep_binding : Binding
}.

(** ** The world the registrations act on *)

(** Besides the event graph and the object store, the world holds the
    toolkit's answer to a listener registration: the exception it raises
    for a binding, if any.  (Outside a [Blocks] context, for one, the
    listener methods raise [AttributeError].) *)
Record World := {
  w_bindings : list Binding;
  w_objects : gmap ObjId Value;
  w_refuses : Binding -> option Exn
}.

Inductive Outcome (S A : Type) :=
| Returns (a : A) (s : S)
| Raises (e : Exn) (s : S).
Arguments Returns {S A} a s.
Arguments Raises {S A} e s.

Definition final_state {S A} (r : Outcome S A) : S :=
  match r with Returns _ s => s | Raises _ s => s end.

(** A call into code outside this file. *)
Definition Ext (A : Type) := World -> Outcome World A.

(** ** Wiring contexts *)

Record GenerationWiringContext := {
  gwc_demo : ObjId;
  gwc_dit_handler : Handler;
  gwc_llm_handler : Handler;
  gwc_dataset_handler : Handler;
  gwc_dataset_section : gmap string Component;
  gwc_generation_section : gmap string Component;
  gwc_results_section : gmap string Component
}.

Record TrainingWiringContext := {
  twc_demo : ObjId;
  twc_dit_handler : Handler;
  twc_llm_handler : Handler;
  twc_training_section : gmap string Component
}.

(** ** The imported names *)

(** [from .wiring import ...]: the helpers the two setup functions call.
    The first two return the lists the later calls consume; what the
    others return is dropped by the caller. *)
Record Wiring := {
  register_generation_service_handlers :
    GenerationWiringContext -> Ext (list Component * list Component);
  build_mode_ui_outputs :
    GenerationWiringContext -> Ext (list Component);
  register_generation_metadata_handlers :
    GenerationWiringContext -> list Component -> list Component -> Ext Value;
  register_generation_mode_handlers :
    GenerationWiringContext ->
    list Component -> list Component -> list Component -> Ext Value;
  register_results_save_button_handlers : GenerationWiringContext -> Ext Value;
  register_results_aux_handlers :
    GenerationWiringContext -> list Component -> Ext Value;
  register_generation_run_handlers : GenerationWiringContext -> Ext Value;
  register_generation_batch_navigation_handlers :
    GenerationWiringContext -> Ext Value;
  register_results_restore_and_lrc_handlers :
    GenerationWiringContext -> Ext Value;
  register_training_dataset_load_handler :
    TrainingWiringContext -> string -> string -> string -> Ext Value;
  register_training_dataset_builder_handlers :
    TrainingWiringContext -> Ext Value;
  register_training_preprocess_handler : TrainingWiringContext -> Ext Value;
  register_training_run_handlers : TrainingWiringContext -> Ext Value
}.

(** [from . import generation_handlers as gen_h]: the two callbacks the
    inline metadata chain refers to. *)
Record GenerationHandlers := {
  load_metadata : Value -> Handler -> Exn + list Value;
  uncheck_auto_for_populated_fields : Callback
}.

(** ** The call log *)

Inductive Call :=
| CallGenerationService (ctx : GenerationWiringContext)
| CallBuildModeUiOutputs (ctx : GenerationWiringContext)
| CallGenerationMetadata (ctx : GenerationWiringContext)
    (auto_checkbox_inputs auto_checkbox_outputs : list Component)
| CallGenerationMode (ctx : GenerationWiringContext)
    (mode_ui_outputs auto_checkbox_inputs auto_checkbox_outputs : list Component)
| CallUpload (target : Component) (fn : Callback)
    (inputs outputs : list Component)
| CallThen (dep : Dependency) (fn : Callback)
    (inputs outputs : list Component)
| CallResultsSaveButton (ctx : GenerationWiringContext)
| CallResultsAux (ctx : GenerationWiringContext)
    (mode_ui_outputs : list Component)
| CallGenerationRun (ctx : GenerationWiringContext)
| CallGenerationBatchNavigation (ctx : GenerationWiringContext)
| CallResultsRestoreAndLrc (ctx : GenerationWiringContext)
| CallTrainingDatasetLoad (ctx : TrainingWiringContext)
    (button_key path_key status_key : string)
| CallTrainingDatasetBuilder (ctx : TrainingWiringContext)
| CallTrainingPreprocess (ctx : TrainingWiringContext)
| CallTrainingRun (ctx : TrainingWiringContext).

(** Which function a logged call went to. *)
Inductive Callee :=
| fn_register_generation_service_handlers
| fn_build_mode_ui_outputs
| fn_register_generation_metadata_handlers
| fn_register_generation_mode_handlers
| fn_upload
| fn_then
| fn_register_results_save_button_handlers
| fn_register_results_aux_handlers
| fn_register_generation_run_handlers
| fn_register_generation_batch_navigation_handlers
| fn_register_results_restore_and_lrc_handlers
| fn_register_training_dataset_load_handler
| fn_register_training_dataset_builder_handlers
| fn_register_training_preprocess_handler
| fn_register_training_run_handlers.

Global Instance Callee_eq_dec : EqDecision Callee.
Proof. solve_decision. Defined.

Definition callee (c : Call) : Callee :=
  match c with
  | CallGenerationService _ => fn_register_generation_service_handlers
  | CallBuildModeUiOutputs _ => fn_build_mode_ui_outputs
  | CallGenerationMetadata _ _ _ => fn_register_generation_metadata_handlers
  | CallGenerationMode _ _ _ _ => fn_register_generation_mode_handlers
  | CallUpload _ _ _ _ => fn_upload
  | CallThen _ _ _ _ => fn_then
  | CallResultsSaveButton _ => fn_register_results_save_button_handlers
  | CallResultsAux _ _ => fn_register_results_aux_handlers
  | CallGenerationRun _ => fn_register_generation_run_handlers
  | CallGenerationBatchNavigation _ =>
      fn_register_generation_batch_navigation_handlers
  | CallResultsRestoreAndLrc _ => fn_register_results_restore_and_lrc_handlers
  | CallTrainingDatasetLoad _ _ _ _ => fn_register_training_dataset_load_handler
  | CallTrainingDatasetBuilder _ =>
      fn_register_training_dataset_builder_handlers
  | CallTrainingPreprocess _ => fn_register_training_preprocess_handler
  | CallTrainingRun _ => fn_register_training_run_handlers
  end.

(** How many times [f] was called in a log. *)
Definition times_called (f : Callee) (log : list Call) : nat :=
  length (filter (fun c => callee c = f) log).

(** The wiring context a logged call was given, when it takes one. *)
Definition generation_context_of (c : Call) : option GenerationWiringContext :=
  match c with
  | CallGenerationService ctx | CallBuildModeUiOutputs ctx
  | CallGenerationMetadata ctx _ _ | CallGenerationMode ctx _ _ _
  | CallResultsSaveButton ctx | CallResultsAux ctx _
  | CallGenerationRun ctx | CallGenerationBatchNavigation ctx
  | CallResultsRestoreAndLrc ctx => Some ctx
  | _ => None
  end.

Definition training_context_of (c : Call) : option TrainingWiringContext :=
  match c with
  | CallTrainingDatasetLoad ctx _ _ _ | CallTrainingDatasetBuilder ctx
  | CallTrainingPreprocess ctx | CallTrainingRun ctx => Some ctx
  | _ => None
  end.

(** ** The monad of the setup functions *)

Record State := {
  calls : list Call;
  world : World
}.

Definition M (A : Type) := State -> Outcome State A.

Definition ret {A} (a : A) : M A := fun st => Returns a st.

Definition raise {A} (e : Exn) : M A := fun st => Raises e st.

Definition bind {A B} (m : M A) (k : A -> M B) : M B :=
  fun st =>
    match m st with
    | Returns a st' => k a st'
    | Raises e st' => Raises e st'
    end.

Declare Scope setup_scope.
Delimit Scope setup_scope with setup.
Notation "x <- m ;; k" := (bind m (fun x => k))
  (at level 100, m at next level, right associativity) : setup_scope.
Notation "m ;; k" := (bind m (fun _ => k))
  (at level 100, right associativity) : setup_scope.

(** Calling out: the call is logged, then its effect on the world and
    its result or exception are taken over. *)
Definition call {A} (c : Call) (f : Ext A) : M A :=
  fun st =>
    let log := calls st ++ [c] in
    match f (world st) with
    | Returns a w => Returns a {| calls := log; world := w |}
    | Raises e w => Raises e {| calls := log; world := w |}
    end.

(** [d[k]] *)
Definition getitem (d : gmap string Component) (k : string) : M Component :=
  match d !! k with
  | Some c => ret c
  | None => raise (KeyError k)
  end.

(** [[d[k1], d[k2], ...]], evaluated left to right. *)
Fixpoint getitems (d : gmap string Component) (ks : list string)
  : M (list Component) :=
  match ks with
  | [] => ret []
  | k :: ks' =>
      (c <- getitem d k ;;
       cs <- getitems d ks' ;;
       ret (c :: cs))%setup
  end.

(** ** Listener methods of the toolkit *)

(** Registering a listener raises when the toolkit refuses the binding;
    otherwise it adds the binding to the event graph and hands back its
    dependency handle. *)
Definition add_listener (trig : Trigger) (fn : Callback)
    (inputs outputs : list Component) : Ext Dependency :=
  fun w =>
    let b := {| b_trigger := trig; b_fn := fn;
                b_inputs := inputs; b_outputs := outputs |} in
    match w_refuses w b with
    | Some e => Raises e w
    | None =>
        Returns {| dep_id := length (w_bindings w); dep_binding := b |}
                {| w_bindings := w_bindings w ++ [b];
                   w_objects := w_objects w;
                   w_refuses := w_refuses w |}
    end.

(** [target.upload(fn=..., inputs=..., outputs=...)] *)
Definition upload (target : Component) (fn : Callback)
    (inputs outputs : list Component) : M Dependency :=
  call (CallUpload target fn inputs outputs)
       (add_listener (OnEvent target Upload) fn inputs outputs).

(** [dep.then(fn=..., inputs=..., outputs=...)] *)
Definition then_ (dep : Dependency) (fn : Callback)
    (inputs outputs : list Component) : M Dependency :=
  call (CallThen dep fn inputs outputs)
       (add_listener (AfterDependency (dep_id dep)) fn inputs outputs).

(** ** The setup functions *)

(** The [generation_section] keys of the [outputs=[...]] list of the
    metadata upload, in source order. *)
Definition load_metadata_generation_outputs : list string :=
  [ "task_type"; "captions"; "lyrics"; "vocal_language"; "bpm";
    "key_scale"; "time_signature"; "audio_duration"; "batch_size_input";
    "inference_steps"; "guidance_scale"; "seed"; "random_seed_checkbox";
    "use_adg"; "cfg_interval_start"; "cfg_interval_end"; "shift";
    "infer_method"; "custom_timesteps"; "audio_format"; "lm_temperature";
    "lm_cfg_scale"; "lm_top_k"; "lm_top_p"; "lm_negative_prompt";
    "use_cot_metas"; "use_cot_caption"; "use_cot_language";
    "audio_cover_strength"; "cover_noise_strength"; "think_checkbox";
    "text2music_audio_code_string"; "repainting_start"; "repainting_end";
    "track_name"; "complete_track_classes"; "instrumental_checkbox" ]%string.

Section Setup.

Variable W : Wiring.
Variable gen_h : GenerationHandlers.

(** [lambda file_obj: gen_h.load_metadata(file_obj, llm_handler)] *)
Definition load_file_callback (llm_handler : Handler) : Callback :=
  fun args =>
    match args with
    | [file_obj] => load_metadata gen_h file_obj llm_handler
    | _ => inl (TypeError "<lambda>() takes 1 positional argument")
    end.

Definition setup_event_handlers
    (demo : ObjId) (dit_handler llm_handler dataset_handler : Handler)
    (dataset_section generation_section results_section
      : gmap string Component) : M Value :=
  let wiring_context :=
    {| gwc_demo := demo;
       gwc_dit_handler := dit_handler;
       gwc_llm_handler := llm_handler;
       gwc_dataset_handler := dataset_handler;
       gwc_dataset_section := dataset_section;
       gwc_generation_section := generation_section;
       gwc_results_section := results_section |} in
  (service_lists <-
     call (CallGenerationService wiring_context)
          (register_generation_service_handlers W wiring_context) ;;
   let '(auto_checkbox_inputs, auto_checkbox_outputs) := service_lists in
   mode_ui_outputs <-
     call (CallBuildModeUiOutputs wiring_context)
          (build_mode_ui_outputs W wiring_context) ;;
   call (CallGenerationMetadata wiring_context
           auto_checkbox_inputs auto_checkbox_outputs)
        (register_generation_metadata_handlers W wiring_context
           auto_checkbox_inputs auto_checkbox_outputs) ;;
   call (CallGenerationMode wiring_context
           mode_ui_outputs auto_checkbox_inputs auto_checkbox_outputs)
        (register_generation_mode_handlers W wiring_context
           mode_ui_outputs auto_checkbox_inputs auto_checkbox_outputs) ;;
   (* ========== Load/Save Metadata ========== *)
   load_file <- getitem generation_section "load_file" ;;
   input <- getitem generation_section "load_file" ;;
   generation_outputs <-
     getitems generation_section load_metadata_generation_outputs ;;
   is_format_caption_state <-
     getitem results_section "is_format_caption_state" ;;
   uploaded <-
     upload load_file (load_file_callback llm_handler) [input]
            (generation_outputs ++ [is_format_caption_state]) ;;
   then_ uploaded (uncheck_auto_for_populated_fields gen_h)
         auto_checkbox_inputs auto_checkbox_outputs ;;
   call (CallResultsSaveButton wiring_context)
        (register_results_save_button_handlers W wiring_context) ;;
   call (CallResultsAux wiring_context mode_ui_outputs)
        (register_results_aux_handlers W wiring_context mode_ui_outputs) ;;
   call (CallGenerationRun wiring_context)
        (register_generation_run_handlers W wiring_context) ;;
   call (CallGenerationBatchNavigation wiring_context)
        (register_generation_batch_navigation_handlers W wiring_context) ;;
   call (CallResultsRestoreAndLrc wiring_context)
        (register_results_restore_and_lrc_handlers W wiring_context) ;;
   ret VNone)%setup.

Definition setup_training_event_handlers
    (demo : ObjId) (dit_handler llm_handler : Handler)
    (training_section : gmap string Component) : M Value :=
  let training_context :=
    {| twc_demo := demo;
       twc_dit_handler := dit_handler;
       twc_llm_handler := llm_handler;
       twc_training_section := training_section |} in
  ((* Load existing dataset JSON at the top of Dataset Builder *)
   call (CallTrainingDatasetLoad training_context
           "load_json_btn" "load_json_path" "load_json_status")
        (register_training_dataset_load_handler W training_context
           "load_json_btn" "load_json_path" "load_json_status") ;;
   call (CallTrainingDatasetBuilder training_context)
        (register_training_dataset_builder_handlers W training_context) ;;
   (* Load existing dataset JSON for preprocessing *)
   call (CallTrainingDatasetLoad training_context
           "load_existing_dataset_btn" "load_existing_dataset_path"
           "load_existing_status")
        (register_training_dataset_load_handler W training_context
           "load_existing_dataset_btn" "load_existing_dataset_path"
           "load_existing_status") ;;
   call (CallTrainingPreprocess training_context)
        (register_training_preprocess_handler W training_context) ;;
   call (CallTrainingRun training_context)
        (register_training_run_handlers W training_context) ;;
   ret VNone)%setup.

End Setup.

(** ** Observations on a run *)

Definition returned {S A} (r : Outcome S A) : bool :=
  match r with Returns _ _ => true | Raises _ _ => false end.

(** The calls a run has added to the log it started from. *)
Definition emitted (st st' : State) : list Call :=
  drop (length (calls st)) (calls st').

(** The auto-checkbox lists a logged call was given, when it takes them. *)
Definition auto_checkbox_lists_of (c : Call)
  : option (list Component * list Component) :=
  match c with
  | CallGenerationMetadata _ i o | CallGenerationMode _ _ i o
  | CallThen _ _ i o => Some (i, o)
  | _ => None
  end.



(** The key triple of a logged dataset-load registration. *)
Definition dataset_load_keys_of (c : Call) : option (string * string * string) :=
  match c with
  | CallTrainingDatasetLoad _ b p s => Some (b, p, s)
  | _ => None
  end.


(** The binding the inline [.upload] declares. *)
Definition upload_binding (gen_h : GenerationHandlers) (llm_handler : Handler)
    (load_file : Component) (outputs : list Component) : Binding :=
  {| b_trigger := OnEvent load_file Upload;
     b_fn := load_file_callback gen_h llm_handler;
     b_inputs := [load_file];
     b_outputs := outputs |}.

(** The log of a complete run of [setup_event_handlers], as a function of
    what the first two helpers returned and of the widgets looked up. *)
Definition generation_calls (gen_h : GenerationHandlers)
    (ctx : GenerationWiringContext)
    (auto_checkbox_inputs auto_checkbox_outputs mode_ui_outputs
      : list Component)
    (load_file : Component) (outputs : list Component) (n : nat)
  : list Call :=
  [ CallGenerationService ctx;
    CallBuildModeUiOutputs ctx;
    CallGenerationMetadata ctx auto_checkbox_inputs auto_checkbox_outputs;
    CallGenerationMode ctx mode_ui_outputs
      auto_checkbox_inputs auto_checkbox_outputs;
    CallUpload load_file (load_file_callback gen_h (gwc_llm_handler ctx))
      [load_file] outputs;
    CallThen
      {| dep_id := n;
         dep_binding :=
           upload_binding gen_h (gwc_llm_handler ctx) load_file outputs |}
      (uncheck_auto_for_populated_fields gen_h)
      auto_checkbox_inputs auto_checkbox_outputs;
    CallResultsSaveButton ctx;
    CallResultsAux ctx mode_ui_outputs;
    CallGenerationRun ctx;
    CallGenerationBatchNavigation ctx;
    CallResultsRestoreAndLrc ctx ].

(** The log of a complete run of [setup_training_event_handlers]. *)
Definition training_calls (ctx : TrainingWiringContext) : list Call :=
  [ CallTrainingDatasetLoad ctx
      "load_json_btn" "load_json_path" "load_json_status";
    CallTrainingDatasetBuilder ctx;
    CallTrainingDatasetLoad ctx
      "load_existing_dataset_btn" "load_existing_dataset_path"
      "load_existing_status";
    CallTrainingPreprocess ctx;
    CallTrainingRun ctx ].

(** The keys [setup_event_handlers] itself looks up. *)
Definition required_generation_keys : list string :=
  "load_file"%string :: load_metadata_generation_outputs.

Definition missing_required_key
    (generation_section results_section : gmap string Component) : Prop :=
  (exists k, k ∈ required_generation_keys /\ generation_section !! k = None) \/
  results_section !! "is_format_caption_state"%string = None.

Definition required_keys_present
    (generation_section results_section : gmap string Component) : Prop :=
  (forall k, k ∈ required_generation_keys ->
             is_Some (generation_section !! k)) /\
  is_Some (results_section !! "is_format_caption_state"%string).

(** ** Assumptions one can make about the helpers *)

(** [f] relates the world it starts in to the world it leaves, whether it
    returns or raises. *)
Definition ext_preserves {A} (R : relation World) (f : Ext A) : Prop :=
  forall w, R w (final_state (f w)).

(** [f] returns normally from every world. *)
Definition ext_returns {A} (f : Ext A) : Prop :=
  forall w, exists a w', f w = Returns a w'.

Definition generation_wiring_all
    (P : forall A, GenerationWiringContext -> Ext A -> Prop)
    (W : Wiring) : Prop :=
  forall ctx,
    P _ ctx (register_generation_service_handlers W ctx) /\
    P _ ctx (build_mode_ui_outputs W ctx) /\
    (forall i o, P _ ctx (register_generation_metadata_handlers W ctx i o)) /\
    (forall m i o, P _ ctx (register_generation_mode_handlers W ctx m i o)) /\
    P _ ctx (register_results_save_button_handlers W ctx) /\
    (forall m, P _ ctx (register_results_aux_handlers W ctx m)) /\
    P _ ctx (register_generation_run_handlers W ctx) /\
    P _ ctx (register_generation_batch_navigation_handlers W ctx) /\
    P _ ctx (register_results_restore_and_lrc_handlers W ctx).

Definition training_wiring_all
    (P : forall A, TrainingWiringContext -> Ext A -> Prop)
    (W : Wiring) : Prop :=
  forall ctx,
    (forall b p s, P _ ctx (register_training_dataset_load_handler W ctx b p s)) /\
    P _ ctx (register_training_dataset_builder_handlers W ctx) /\
    P _ ctx (register_training_preprocess_handler W ctx) /\
    P _ ctx (register_training_run_handlers W ctx).

(** The same for a computation of the setup monad. *)
Definition run_preserves {A} (R : relation World) (m : M A) : Prop :=
  forall st, R (world st) (world (final_state (m st))).

(** A helper that only registers: it leaves every object as it was and
    keeps the bindings that are already in the event graph. *)
Definition only_registers : relation World :=
  fun w w' =>
    w_objects w' = w_objects w /\ w_bindings w `prefix_of` w_bindings w'.

Definition wiring_only_registers (W : Wiring) : Prop :=
  generation_wiring_all (fun A _ f => ext_preserves only_registers f) W /\
  training_wiring_all (fun A _ f => ext_preserves only_registers f) W.

Definition generation_wiring_returns (W : Wiring) : Prop :=
  generation_wiring_all (fun A _ f => ext_returns f) W.

Definition training_wiring_returns (W : Wiring) : Prop :=
  training_wiring_all (fun A _ f => ext_returns f) W.

(** The widgets a binding touches. *)
Definition binding_components (b : Binding) : list Component :=
  match b_trigger b with
  | OnEvent target _ => [target]
  | AfterDependency _ => []
  end ++ b_inputs b ++ b_outputs b.

(** [w'] is [w] with more bindings, each touching only widgets of the
    component map [section]. *)
Definition registers_within (section : gmap string Component)
  : relation World :=
  fun w w' =>
    exists new,
      w_bindings w' = w_bindings w ++ new /\
      Forall (fun b => forall c, c ∈ binding_components b ->
                                 exists k, section !! k = Some c) new.

Definition training_wiring_local (W : Wiring) : Prop :=
  training_wiring_all
    (fun A ctx f =>
       ext_preserves (registers_within (twc_training_section ctx)) f) W.

(** ** The dataset-load registration, from its description *)

(** Modelled from the spec: [register_training_dataset_load_handler] of
    the [wiring] module, whose body is not among the sources.  The spec
    describes it as a parameterized "load dataset JSON" registration,
    distinguished by which button, path and status keys it binds, for the
    same underlying load action.  It looks the three keys up in the
    training component map and binds the button's click to the load
    action, with the path widget as input and the status widget as
    output. *)
Definition spec_register_training_dataset_load_handler
    (load_action : Callback) (ctx : TrainingWiringContext)
    (button_key path_key status_key : string) : Ext Value :=
  fun w =>
    match twc_training_section ctx !! button_key with
    | None => Raises (KeyError button_key) w
    | Some button =>
        match twc_training_section ctx !! path_key with
        | None => Raises (KeyError path_key) w
        | Some path =>
            match twc_training_section ctx !! status_key with
            | None => Raises (KeyError status_key) w
            | Some status =>
                match add_listener (OnEvent button Click) load_action
                                   [path] [status] w with
                | Returns _ w' => Returns VNone w'
                | Raises e w' => Raises e w'
                end
            end
        end
    end.

(** The binding that registration adds. *)
Definition dataset_load_binding (load_action : Callback)
    (button path status : Component) : Binding :=
  {| b_trigger := OnEvent button Click;
     b_fn := load_action;
     b_inputs := [path];
     b_outputs := [status] |}.

(** ** Example inputs *)

(** A helper that returns [a] and leaves the world alone. *)
Definition returning {A} (a : A) : Ext A := fun w => Returns a w.

(** Helpers that hand out the given lists and otherwise do nothing,
    around a dataset-load registration [load]. *)
Definition example_wiring
    (auto_checkbox_inputs auto_checkbox_outputs mode_ui_outputs
      : list Component)
    (load : TrainingWiringContext -> string -> string -> string -> Ext Value)
  : Wiring :=
  {| register_generation_service_handlers := fun _ =>
       returning (auto_checkbox_inputs, auto_checkbox_outputs);
     build_mode_ui_outputs := fun _ => returning mode_ui_outputs;
     register_generation_metadata_handlers := fun _ _ _ => returning VNone;
     register_generation_mode_handlers := fun _ _ _ _ => returning VNone;
     register_results_save_button_handlers := fun _ => returning VNone;
     register_results_aux_handlers := fun _ _ => returning VNone;
     register_generation_run_handlers := fun _ => returning VNone;
     register_generation_batch_navigation_handlers := fun _ =>
       returning VNone;
     register_results_restore_and_lrc_handlers := fun _ => returning VNone;
     register_training_dataset_load_handler := load;
     register_training_dataset_builder_handlers := fun _ => returning VNone;
     register_training_preprocess_handler := fun _ => returning VNone;
     register_training_run_handlers := fun _ => returning VNone |}.

(** A dataset-load registration that registers nothing. *)
Definition example_load
  : TrainingWiringContext -> string -> string -> string -> Ext Value :=
  fun _ _ _ _ => returning VNone.

Definition example_gen_h : GenerationHandlers :=
  {| load_metadata := fun file_obj _ => inr (replicate 38 file_obj);
     uncheck_auto_for_populated_fields := fun values =>
       inr ((fun _ => VBool false) <$> values) |}.

Definition example_load_action : Callback := fun values => inr values.

(** Widgets 1 to 38 under the keys the metadata upload needs. *)
Definition example_generation_section : gmap string Component :=
  list_to_map (zip required_generation_keys (seq 1 38)).

Definition example_results_section : gmap string Component :=
  {[ "is_format_caption_state"%string := 50 ]}.

Definition example_training_section : gmap string Component :=
  list_to_map
    [ ("load_json_btn", 60); ("load_json_path", 61);
      ("load_json_status", 62); ("load_existing_dataset_btn", 63);
      ("load_existing_dataset_path", 64); ("load_existing_status", 65) ]%string.

Definition example_state : State :=
  {| calls := [];
     world := {| w_bindings := [];
                 w_objects := ∅;
                 w_refuses := fun _ => None |} |}.

(** Container 0, handlers 1, 2 and 3, an empty dataset map. *)
Definition example_generation_setup (W : Wiring) : M Value :=
  setup_event_handlers W example_gen_h 0 1 2 3 ∅
    example_generation_section example_results_section.

Definition example_training_setup (W : Wiring) : M Value :=
  setup_training_event_handlers W 0 1 2 example_training_section.

Definition example_inert_wiring : Wiring :=
  example_wiring [1] [2] [3] example_load.

Definition example_spec_wiring : Wiring :=
  example_wiring [1] [2] [3]
    (spec_register_training_dataset_load_handler example_load_action).

(** ** Finer observations on a run *)

(** The first key of [ks], in order, that [d] lacks. *)
Definition first_missing (d : gmap string Component) (ks : list string)
  : option string :=
  List.find (fun k => bool_decide (d !! k = None)) ks.

(** The first lookup of [setup_event_handlers] that fails: the keys of
    [generation_section] come first, in the order they are looked up, then
    the one key of [results_section]. *)
Definition first_missing_required
    (generation_section results_section : gmap string Component)
  : option string :=
  match first_missing generation_section required_generation_keys with
  | Some k => Some k
  | None =>
      if bool_decide (results_section !! "is_format_caption_state"%string = None)
      then Some "is_format_caption_state"%string
      else None
  end.

(** The binding the chained [.then] declares on dependency [n]. *)
Definition then_binding (gen_h : GenerationHandlers) (n : nat)
    (auto_checkbox_inputs auto_checkbox_outputs : list Component) : Binding :=
  {| b_trigger := AfterDependency n;
     b_fn := uncheck_auto_for_populated_fields gen_h;
     b_inputs := auto_checkbox_inputs;
     b_outputs := auto_checkbox_outputs |}.

(** The world after the inline upload chain, started in [w]. *)
Definition chain_world (gen_h : GenerationHandlers) (llm_handler : Handler)
    (load_file : Component) (outputs : list Component)
    (auto_checkbox_inputs auto_checkbox_outputs : list Component)
    (w : World) : World :=
  {| w_bindings :=
       (w_bindings w ++ [upload_binding gen_h llm_handler load_file outputs])
       ++ [then_binding gen_h (length (w_bindings w))
             auto_checkbox_inputs auto_checkbox_outputs];
     w_objects := w_objects w;
     w_refuses := w_refuses w |}.

(** The world after the inline [.upload], started in [w]. *)
Definition upload_world (gen_h : GenerationHandlers) (llm_handler : Handler)
    (load_file : Component) (outputs : list Component) (w : World) : World :=
  {| w_bindings :=
       w_bindings w ++ [upload_binding gen_h llm_handler load_file outputs];
     w_objects := w_objects w;
     w_refuses := w_refuses w |}.

(** The toolkit accepts every listener registration in [w]. *)
Definition toolkit_accepts (w : World) : Prop :=
  forall b, w_refuses w b = None.

(** A helper after which the toolkit still accepts registrations if it
    did before (it does not leave the [Blocks] context, say). *)
Definition keeps_accepting : relation World :=
  fun w w' => toolkit_accepts w -> toolkit_accepts w'.

Definition generation_wiring_keeps_accepting (W : Wiring) : Prop :=
  generation_wiring_all (fun A _ f => ext_preserves keeps_accepting f) W.

(** The helper or listener method behind the logged call [c], started in
    [w], raised [e] and left [w']. *)
Definition call_raises (W : Wiring) (c : Call) (w : World) (e : Exn)
    (w' : World) : Prop :=
  match c with
  | CallGenerationService ctx =>
      register_generation_service_handlers W ctx w = Raises e w'
  | CallBuildModeUiOutputs ctx => build_mode_ui_outputs W ctx w = Raises e w'
  | CallGenerationMetadata ctx i o =>
      register_generation_metadata_handlers W ctx i o w = Raises e w'
  | CallGenerationMode ctx m i o =>
      register_generation_mode_handlers W ctx m i o w = Raises e w'
  | CallUpload target fn inputs outputs =>
      add_listener (OnEvent target Upload) fn inputs outputs w = Raises e w'
  | CallThen dep fn inputs outputs =>
      add_listener (AfterDependency (dep_id dep)) fn inputs outputs w
        = Raises e w'
  | CallResultsSaveButton ctx =>
      register_results_save_button_handlers W ctx w = Raises e w'
  | CallResultsAux ctx m => register_results_aux_handlers W ctx m w = Raises e w'
  | CallGenerationRun ctx => register_generation_run_handlers W ctx w = Raises e w'
  | CallGenerationBatchNavigation ctx =>
      register_generation_batch_navigation_handlers W ctx w = Raises e w'
  | CallResultsRestoreAndLrc ctx =>
      register_results_restore_and_lrc_handlers W ctx w = Raises e w'
  | CallTrainingDatasetLoad ctx b p s =>
      register_training_dataset_load_handler W ctx b p s w = Raises e w'
  | CallTrainingDatasetBuilder ctx =>
      register_training_dataset_builder_handlers W ctx w = Raises e w'
  | CallTrainingPreprocess ctx =>
      register_training_preprocess_handler W ctx w = Raises e w'
  | CallTrainingRun ctx => register_training_run_handlers W ctx w = Raises e w'
  end.


(** A generation map with [load_file] and none of the output keys. *)
Definition example_partial_generation_section : gmap string Component :=
  {[ "load_file"%string := 1 ]}.

(** A helper that registers the binding [b] and returns [a]. *)
Definition registering {A} (b : Binding) (a : A) : Ext A :=
  fun w =>
    Returns a {| w_bindings := w_bindings w ++ [b];
                 w_objects := w_objects w;
                 w_refuses := w_refuses w |}.

Definition example_binding : Binding :=
  {| b_trigger := OnEvent 7 Change;
     b_fn := example_load_action;
     b_inputs := [7];
     b_outputs := [8] |}.

(** Helpers of which the service and save-button registrations each add a
    binding. *)
Definition example_registering_wiring : Wiring :=
  {| register_generation_service_handlers := fun _ =>
       registering example_binding ([1], [2]);
     build_mode_ui_outputs := fun _ => returning [3];
     register_generation_metadata_handlers := fun _ _ _ => returning VNone;
     register_generation_mode_handlers := fun _ _ _ _ => returning VNone;
     register_results_save_button_handlers := fun _ =>
       registering example_binding VNone;
     register_results_aux_handlers := fun _ _ => returning VNone;
     register_generation_run_handlers := fun _ => returning VNone;
     register_generation_batch_navigation_handlers := fun _ =>
       returning VNone;
     register_results_restore_and_lrc_handlers := fun _ => returning VNone;
     register_training_dataset_load_handler := fun _ _ _ _ =>
       registering example_binding VNone;
     register_training_dataset_builder_handlers := fun _ => returning VNone;
     register_training_preprocess_handler := fun _ => returning VNone;
     register_training_run_handlers := fun _ => returning VNone |}.

(** A state in which the three handlers 1, 2 and 3 have a state of their
    own and one binding is registered already. *)
Definition example_populated_state : State :=
  {| calls := [];
     world :=
       {| w_bindings := [example_binding];
          w_objects :=
            {[ 1 := VStr "dit"; 2 := VStr "llm"; 3 := VStr "dataset" ]};
          w_refuses := fun _ => None |} |}.


(** A helper that raises [e] and leaves the world alone. *)
Definition raising {A} (e : Exn) : Ext A := fun w => Raises e w.

(** Helpers of which the first generation helper and the dataset-load
    registration fail. *)
Definition example_failing_wiring : Wiring :=
  {| register_generation_service_handlers := fun _ =>
       raising (RuntimeError "service unavailable");
     build_mode_ui_outputs := fun _ => returning [];
     register_generation_metadata_handlers := fun _ _ _ => returning VNone;
     register_generation_mode_handlers := fun _ _ _ _ => returning VNone;
     register_results_save_button_handlers := fun _ => returning VNone;
     register_results_aux_handlers := fun _ _ => returning VNone;
     register_generation_run_handlers := fun _ => returning VNone;
     register_generation_batch_navigation_handlers := fun _ =>
       returning VNone;
     register_results_restore_and_lrc_handlers := fun _ => returning VNone;
     register_training_dataset_load_handler := fun _ _ _ _ =>
       raising (RuntimeError "dataset unavailable");
     register_training_dataset_builder_handlers := fun _ => returning VNone;
     register_training_preprocess_handler := fun _ => returning VNone;
     register_training_run_handlers := fun _ => returning VNone |}.

(** ** Running the monad *)

Lemma getitem_Some d k c st :
  d !! k = Some c -> getitem d k st = Returns c st.
Proof. intros H. unfold getitem. by rewrite H. Qed.

Lemma getitem_None d k st :
  d !! k = None -> getitem d k st = Raises (KeyError k) st.
Proof. intros H. unfold getitem. by rewrite H. Qed.

(** A list of lookups either finds every key, or raises [KeyError] at a
    key that is absent; the state is untouched either way. *)
Lemma getitems_cases d ks st :
  (exists cs, mapM (fun k => d !! k) ks = Some cs /\
              getitems d ks st = Returns cs st) \/
  (exists k, k ∈ ks /\ d !! k = None /\
             getitems d ks st = Raises (KeyError k) st).
Proof.
  induction ks as [|k ks IH]; simpl.
  - left. by exists [].
  - unfold bind. destruct (d !! k) as [c|] eqn:Hk.
    + rewrite (getitem_Some _ _ c) by done.
      destruct IH as [(cs & Hcs & Hrun)|(k' & Hin & Hk' & Hrun)].
      * left. exists (c :: cs). rewrite Hrun. split; [|done].
        by rewrite Hcs.
      * right. exists k'. rewrite Hrun. split_and!; [|done..].
        by apply list_elem_of_further.
    + right. exists k. rewrite getitem_None by done.
      split_and!; [|done..]. apply list_elem_of_here.
Qed.

Lemma getitems_Returns d ks st cs st' :
  getitems d ks st = Returns cs st' ->
  mapM (fun k => d !! k) ks = Some cs /\ st' = st.
Proof.
  intros H.
  destruct (getitems_cases d ks st) as [(cs0 & Hcs & Hrun)|(k & _ & _ & Hrun)];
    rewrite Hrun in H; [|discriminate].
  by injection H as -> ->.
Qed.

Lemma getitems_Raises d ks st e st' :
  getitems d ks st = Raises e st' ->
  exists k, k ∈ ks /\ d !! k = None /\ e = KeyError k /\ st' = st.
Proof.
  intros H.
  destruct (getitems_cases d ks st) as [(cs0 & Hcs & Hrun)|(k & ? & ? & Hrun)];
    rewrite Hrun in H; [discriminate|].
  injection H as <- <-. by exists k.
Qed.


Lemma emitted_app st l w : emitted st {| calls := calls st ++ l; world := w |} = l.
Proof. unfold emitted. simpl. by rewrite drop_app_length. Qed.

Lemma Raises_not_returns {A} (f : Ext A) w e w' :
  f w = Raises e w' -> ~ ext_returns f.
Proof. intros E HR. destruct (HR w) as (a & w'' & E'). congruence. Qed.

Section GenerationRuns.

Variable W : Wiring.
Variable gen_h : GenerationHandlers.
Variables (demo : ObjId) (dit_handler llm_handler dataset_handler : Handler).
Variables (dataset_section generation_section results_section
            : gmap string Component).

Local Abbreviation ctx :=
  {| gwc_demo := demo;
     gwc_dit_handler := dit_handler;
     gwc_llm_handler := llm_handler;
     gwc_dataset_handler := dataset_handler;
     gwc_dataset_section := dataset_section;
     gwc_generation_section := generation_section;
     gwc_results_section := results_section |}.

Local Abbreviation setup :=
  (setup_event_handlers W gen_h demo dit_handler llm_handler dataset_handler
     dataset_section generation_section results_section).

Local Arguments getitems : simpl never.

(** A helper that raised refutes the assumption that all helpers return. *)
Local Ltac helper_raised :=
  let HR := fresh "HR" in
  intros HR; specialize (HR ctx);
  destruct HR as (?H & ?H & ?H & ?H & ?H & ?H & ?H & ?H & ?H);
  match goal with
  | E : _ = Raises _ _ |- _ =>
      apply (Raises_not_returns _ _ _ _ E); auto
  end.

(** The leaf of a run in which the [j]-th call raised. *)
Local Ltac raised_at j aci aco mode lf outs n :=
  exists aci, aco, mode, lf, outs, n; eexists;
  first [ right; right; left; eexists _, j;
          split_and!; [reflexivity|by rewrite <- ?(assoc_L (++))|lia|lia|helper_raised]
        | right; right; right; left; eexists _, j;
          split_and!; [reflexivity|by rewrite <- ?(assoc_L (++))|lia|lia|helper_raised|] ].

(** The leaf of a run in which the listener method called as the [j]-th
    call raised. *)
Local Ltac refused_at j aci aco mode lf outs n :=
  exists aci, aco, mode, lf, outs, n; eexists;
  right; right; right; right; eexists _, j;
  split_and!; [reflexivity|by rewrite <- ?(assoc_L (++))|lia|lia|].

(** Every run of [setup_event_handlers] is of one of five kinds: it
    returns [None] after the eleven calls; one of its own lookups raises
    [KeyError] after the first four calls; one of those first four calls
    raises; one of the five calls after the upload chain raises; or one of
    the two listener methods of the chain raises. *)
Lemma setup_event_handlers_cases st :
  exists aci aco mode lf outs n st',
    let full := generation_calls gen_h ctx aci aco mode lf outs n in
    (setup st = Returns VNone st' /\
     calls st' = calls st ++ full /\
     required_keys_present generation_section results_section /\
     exists w1 w2 gouts fc,
       register_generation_service_handlers W ctx (world st)
         = Returns (aci, aco) w1 /\
       build_mode_ui_outputs W ctx w1 = Returns mode w2 /\
       generation_section !! "load_file" = Some lf /\
       mapM (fun k => generation_section !! k)
            load_metadata_generation_outputs = Some gouts /\
       results_section !! "is_format_caption_state" = Some fc /\
       outs = gouts ++ [fc]) \/
    (exists k,
       setup st = Raises (KeyError k) st' /\
       calls st' = calls st ++ take 4 full /\
       (k ∈ required_generation_keys /\ generation_section !! k = None \/
        k = "is_format_caption_state" /\ results_section !! k = None)) \/
    (exists e j,
       setup st = Raises e st' /\
       calls st' = calls st ++ take j full /\
       1 <= j <= 4 /\
       ~ generation_wiring_returns W) \/
    (exists e j,
       setup st = Raises e st' /\
       calls st' = calls st ++ take j full /\
       7 <= j <= 11 /\
       ~ generation_wiring_returns W /\
       required_keys_present generation_section results_section) \/
    (exists e j,
       setup st = Raises e st' /\
       calls st' = calls st ++ take j full /\
       5 <= j <= 6 /\
       required_keys_present generation_section results_section).
Proof.
  unfold setup_event_handlers, bind, call, upload, then_, add_listener.
  simpl.
  destruct (register_generation_service_handlers W _ _)
    as [[aci aco] w1|e w1] eqn:E1; simpl;
    [|raised_at 1 (@nil Component) (@nil Component) (@nil Component) 0 (@nil Component) 0].
  destruct (build_mode_ui_outputs W _ _) as [mode w2|e w2] eqn:E2; simpl;
    [|raised_at 2 aci aco (@nil Component) 0 (@nil Component) 0].
  destruct (register_generation_metadata_handlers W _ _ _ _)
    as [? w3|e w3] eqn:E3; simpl;
    [|raised_at 3 aci aco mode 0 (@nil Component) 0].
  destruct (register_generation_mode_handlers W _ _ _ _ _)
    as [? w4|e w4] eqn:E4; simpl;
    [|raised_at 4 aci aco mode 0 (@nil Component) 0].
  unfold getitem.
  destruct (generation_section !! "load_file") as [lf|] eqn:Elf; simpl.
  2:{ exists aci, aco, mode, 0, [], 0. eexists. right; left.
      exists "load_file". split_and!; [done|by rewrite <- ?(assoc_L (++))|].
      left. split; [apply list_elem_of_here|done]. }
  destruct (getitems _ _ _) as [gouts s5|e s5] eqn:E5; simpl.
  2:{ apply getitems_Raises in E5 as (k & Hin & Hk & -> & ->).
      exists aci, aco, mode, lf, [], 0. eexists. right; left.
      exists k. split_and!; [done|by rewrite <- ?(assoc_L (++))|].
      left. split; [by apply list_elem_of_further|done]. }
  apply getitems_Returns in E5 as [E5 ->].
  destruct (results_section !! "is_format_caption_state") as [fc|] eqn:Efc;
    simpl.
  2:{ exists aci, aco, mode, lf, [], 0. eexists. right; left.
      exists "is_format_caption_state".
      split_and!; [done|by rewrite <- ?(assoc_L (++))|]. by right. }
  assert (required_keys_present generation_section results_section) as Hall.
  { split; [|by eexists].
    intros k [->|Hin]%elem_of_cons; [by eexists|].
    assert (is_Some (mapM (fun k => generation_section !! k)
                          load_metadata_generation_outputs)) as Hsome
      by (by eexists).
    apply mapM_is_Some_1 in Hsome.
    by apply (proj1 (Forall_forall _ _) Hsome). }
  unfold call. simpl.
  destruct (w_refuses w4 (Build_Binding (OnEvent _ _) _ _ _))
    as [e|] eqn:Eup; simpl;
    [refused_at 5 aci aco mode lf (gouts ++ [fc]) (length (w_bindings w4));
     done|].
  destruct (w_refuses w4 (Build_Binding (AfterDependency _) _ _ _))
    as [e|] eqn:Ethen; simpl;
    [refused_at 6 aci aco mode lf (gouts ++ [fc]) (length (w_bindings w4));
     done|].
  destruct (register_results_save_button_handlers W _ _)
    as [? w6|e w6] eqn:E6; simpl;
    [|raised_at 7 aci aco mode lf (gouts ++ [fc]) (length (w_bindings w4));
      done].
  destruct (register_results_aux_handlers W _ _ _)
    as [? w7|e w7] eqn:E7; simpl;
    [|raised_at 8 aci aco mode lf (gouts ++ [fc]) (length (w_bindings w4));
      done].
  destruct (register_generation_run_handlers W _ _)
    as [? w8|e w8] eqn:E8; simpl;
    [|raised_at 9 aci aco mode lf (gouts ++ [fc]) (length (w_bindings w4));
      done].
  destruct (register_generation_batch_navigation_handlers W _ _)
    as [? w9|e w9] eqn:E9; simpl;
    [|raised_at 10 aci aco mode lf (gouts ++ [fc]) (length (w_bindings w4));
      done].
  destruct (register_results_restore_and_lrc_handlers W _ _)
    as [? w10|e w10] eqn:E10; simpl;
    [|raised_at 11 aci aco mode lf (gouts ++ [fc]) (length (w_bindings w4));
      done].
  exists aci, aco, mode, lf, (gouts ++ [fc]), (length (w_bindings w4)).
  eexists. left. split_and!; [done|by rewrite <- ?(assoc_L (++))|done|].
  by exists w1, w2, gouts, fc.
Qed.

End GenerationRuns.

(** ** A run, step by step *)

Lemma first_missing_Some d ks k :
  first_missing d ks = Some k -> k ∈ ks /\ d !! k = None.
Proof.
  unfold first_missing. intros H. apply List.find_some in H as [Hin Hk].
  apply bool_decide_eq_true in Hk. split; [|done].
  by apply list_elem_of_In.
Qed.

Lemma first_missing_None d ks :
  first_missing d ks = None -> forall k, k ∈ ks -> is_Some (d !! k).
Proof.
  unfold first_missing. intros H k Hin.
  apply list_elem_of_In in Hin.
  pose proof (List.find_none _ _ H k Hin) as Hk. simpl in Hk.
  apply bool_decide_eq_false in Hk.
  by destruct (d !! k); [eexists|].
Qed.

Lemma first_missing_cons d k ks :
  first_missing d (k :: ks) =
    if bool_decide (d !! k = None) then Some k else first_missing d ks.
Proof. reflexivity. Qed.

(** A list of lookups raises at the first key that is missing. *)
Lemma getitems_first_missing d ks st :
  getitems d ks st =
    match first_missing d ks with
    | Some k => Raises (KeyError k) st
    | None =>
        match mapM (fun k => d !! k) ks with
        | Some cs => Returns cs st
        | None => Raises (KeyError "") st
        end
    end.
Proof.
  unfold first_missing.
  induction ks as [|k ks IH]; [done|].
  simpl. unfold bind, getitem.
  destruct (d !! k) as [c|] eqn:Hk.
  - case_bool_decide; [congruence|]. simpl. rewrite IH.
    destruct (List.find _ ks); [done|].
    by destruct (mapM _ ks).
  - case_bool_decide; [done|congruence].
Qed.

Section Steps.

Variable W : Wiring.
Variable gen_h : GenerationHandlers.
Variables (demo : ObjId) (dit_handler llm_handler dataset_handler : Handler).
Variables (dataset_section generation_section results_section
            : gmap string Component).

Local Abbreviation ctx :=
  {| gwc_demo := demo;
     gwc_dit_handler := dit_handler;
     gwc_llm_handler := llm_handler;
     gwc_dataset_handler := dataset_handler;
     gwc_dataset_section := dataset_section;
     gwc_generation_section := generation_section;
     gwc_results_section := results_section |}.

Local Abbreviation setup :=
  (setup_event_handlers W gen_h demo dit_handler llm_handler dataset_handler
     dataset_section generation_section results_section).

Local Arguments getitems : simpl never.
Local Arguments first_missing : simpl never.

(** The leaf of a run in which the call at position [j] raised. *)
Local Ltac early_raise j aci aco mode :=
  right; exists aci, aco, mode, j; eexists _, _, _, _;
  split_and!; [lia|reflexivity|eassumption|by rewrite <- ?(assoc_L (++))].

Local Ltac late_raise j :=
  right; right; exists j; eexists _, _, _, _;
  split_and!;
    [lia|lia|reflexivity|eassumption|by rewrite <- ?(assoc_L (++))].

(** Every run of [setup_event_handlers], step by step: which helper ran
    in which world, what the lookups found, whether the toolkit took the
    two listener registrations, and the state the run ends in. *)
Lemma setup_event_handlers_steps st :
  (exists aci aco w1 mode w2 v3 w3 v4 w4,
      register_generation_service_handlers W ctx (world st)
        = Returns (aci, aco) w1 /\
      build_mode_ui_outputs W ctx w1 = Returns mode w2 /\
      register_generation_metadata_handlers W ctx aci aco w2
        = Returns v3 w3 /\
      register_generation_mode_handlers W ctx mode aci aco w3
        = Returns v4 w4 /\
      ((exists k,
           first_missing_required generation_section results_section
             = Some k /\
           setup st =
             Raises (KeyError k)
               {| calls :=
                    calls st ++
                    [ CallGenerationService ctx;
                      CallBuildModeUiOutputs ctx;
                      CallGenerationMetadata ctx aci aco;
                      CallGenerationMode ctx mode aci aco ];
                  world := w4 |}) \/
       (exists lf gouts fc,
           generation_section !! "load_file" = Some lf /\
           mapM (fun k => generation_section !! k)
                load_metadata_generation_outputs = Some gouts /\
           results_section !! "is_format_caption_state" = Some fc /\
           let full :=
             generation_calls gen_h ctx aci aco mode lf (gouts ++ [fc])
               (length (w_bindings w4)) in
           let w6 :=
             chain_world gen_h llm_handler lf (gouts ++ [fc]) aci aco w4 in
           ((exists v7 w7 v8 w8 v9 w9 v10 w10 v11 w11,
                w_refuses w4
                  (upload_binding gen_h llm_handler lf (gouts ++ [fc]))
                  = None /\
                w_refuses w4
                  (then_binding gen_h (length (w_bindings w4)) aci aco)
                  = None /\
                register_results_save_button_handlers W ctx w6
                  = Returns v7 w7 /\
                register_results_aux_handlers W ctx mode w7
                  = Returns v8 w8 /\
                register_generation_run_handlers W ctx w8
                  = Returns v9 w9 /\
                register_generation_batch_navigation_handlers W ctx w9
                  = Returns v10 w10 /\
                register_results_restore_and_lrc_handlers W ctx w10
                  = Returns v11 w11 /\
                setup st =
                  Returns VNone
                    {| calls := calls st ++ full; world := w11 |}) \/
            (exists e,
                (w_refuses w4
                   (upload_binding gen_h llm_handler lf (gouts ++ [fc]))
                   = Some e /\
                 setup st =
                   Raises e
                     {| calls := calls st ++ take 5 full; world := w4 |}) \/
                (w_refuses w4
                   (upload_binding gen_h llm_handler lf (gouts ++ [fc]))
                   = None /\
                 w_refuses w4
                   (then_binding gen_h (length (w_bindings w4)) aci aco)
                   = Some e /\
                 setup st =
                   Raises e
                     {| calls := calls st ++ take 6 full;
                        world :=
                          upload_world gen_h llm_handler lf (gouts ++ [fc])
                            w4 |})) \/
            (exists j c w e w',
                6 <= j < 11 /\
                full !! j = Some c /\
                call_raises W c w e w' /\
                setup st =
                  Raises e
                    {| calls := calls st ++ take (S j) full;
                       world := w' |}))))) \/
  (exists aci aco mode j c w e w',
      j < 4 /\
      generation_calls gen_h ctx aci aco mode 0 [] 0 !! j = Some c /\
      call_raises W c w e w' /\
      setup st =
        Raises e
          {| calls :=
               calls st ++
               take (S j) (generation_calls gen_h ctx aci aco mode 0 [] 0);
             world := w' |}).
Proof.
  unfold setup_event_handlers, bind, call, upload, then_, add_listener.
  simpl.
  destruct (register_generation_service_handlers W _ _)
    as [[aci aco] w1|e w1] eqn:E1; simpl;
    [|early_raise 0 (@nil Component) (@nil Component) (@nil Component)].
  destruct (build_mode_ui_outputs W _ _) as [mode w2|e w2] eqn:E2; simpl;
    [|early_raise 1 aci aco (@nil Component)].
  destruct (register_generation_metadata_handlers W _ _ _ _)
    as [v3 w3|e w3] eqn:E3; simpl; [|early_raise 2 aci aco mode].
  destruct (register_generation_mode_handlers W _ _ _ _ _)
    as [v4 w4|e w4] eqn:E4; simpl; [|early_raise 3 aci aco mode].
  left. exists aci, aco, w1, mode, w2, v3, w3, v4, w4.
  split_and!; [done..|].
  unfold first_missing_required, required_generation_keys, getitem.
  rewrite first_missing_cons.
  destruct (generation_section !! "load_file") as [lf|] eqn:Elf.
  2:{ case_bool_decide; [|congruence]. simpl. left. exists "load_file".
      split; [done|]. by rewrite <- ?(assoc_L (++)). }
  case_bool_decide; [congruence|]. simpl.
  rewrite getitems_first_missing.
  destruct (first_missing generation_section
              load_metadata_generation_outputs) as [k|] eqn:Hfirst.
  { simpl. left. exists k. split; [done|]. by rewrite <- ?(assoc_L (++)). }
  destruct (mapM (fun k => generation_section !! k)
                 load_metadata_generation_outputs) as [gouts|] eqn:Hg.
  2:{ exfalso. apply mapM_None_1 in Hg. apply Exists_exists in Hg
        as (k & Hin & Hk).
      destruct (first_missing_None _ _ Hfirst k Hin) as [c Hc]. congruence. }
  simpl.
  destruct (results_section !! "is_format_caption_state") as [fc|] eqn:Efc.
  2:{ case_bool_decide; [|congruence]. simpl.
      left. exists "is_format_caption_state".
      split; [done|]. by rewrite <- ?(assoc_L (++)). }
  simpl.
  right. exists lf, gouts, fc. split_and!; [done..|].
  cbv zeta.
  unfold call, chain_world, upload_world, upload_binding, then_binding.
  simpl.
  destruct (w_refuses w4 (Build_Binding (OnEvent _ _) _ _ _))
    as [e|] eqn:Eup; simpl.
  { right; left. exists e. left.
    split; [done|]. by rewrite <- ?(assoc_L (++)). }
  destruct (w_refuses w4 (Build_Binding (AfterDependency _) _ _ _))
    as [e|] eqn:Ethen; simpl.
  { right; left. exists e. right.
    split_and!; [done|done|]. by rewrite <- ?(assoc_L (++)). }
  destruct (register_results_save_button_handlers W _ _)
    as [v7 w7|e w7] eqn:E7; simpl; [|late_raise 6].
  destruct (register_results_aux_handlers W _ _ _)
    as [v8 w8|e w8] eqn:E8; simpl; [|late_raise 7].
  destruct (register_generation_run_handlers W _ _)
    as [v9 w9|e w9] eqn:E9; simpl; [|late_raise 8].
  destruct (register_generation_batch_navigation_handlers W _ _)
    as [v10 w10|e w10] eqn:E10; simpl; [|late_raise 9].
  destruct (register_results_restore_and_lrc_handlers W _ _)
    as [v11 w11|e w11] eqn:E11; simpl; [|late_raise 10].
  left. exists v7, w7, v8, w8, v9, w9, v10, w10, v11, w11.
  split_and!; [done..|]. by rewrite <- ?(assoc_L (++)).
Qed.

End Steps.

(** ** Relations every step of a run preserves *)

Section RunPreserves.

Context (R : relation World) `{!PreOrder R}.

Lemma run_preserves_ret {A} (a : A) : run_preserves R (ret a).
Proof. intros st. simpl. reflexivity. Qed.

Lemma run_preserves_raise {A} e : run_preserves R (@raise A e).
Proof. intros st. simpl. reflexivity. Qed.

Lemma run_preserves_bind {A B} (m : M A) (k : A -> M B) :
  run_preserves R m ->
  (forall a, run_preserves R (k a)) ->
  run_preserves R (bind m k).
Proof.
  intros Hm Hk st. unfold bind. specialize (Hm st).
  destruct (m st) as [a st1|e st1]; simpl in *; [|done].
  etrans; [exact Hm|apply Hk].
Qed.

Lemma run_preserves_call {A} c (f : Ext A) :
  ext_preserves R f -> run_preserves R (call c f).
Proof.
  intros Hf st. unfold call. specialize (Hf (world st)).
  by destruct (f (world st)).
Qed.

Lemma run_preserves_getitem d k : run_preserves R (getitem d k).
Proof.
  unfold getitem.
  destruct (d !! k); [apply run_preserves_ret|apply run_preserves_raise].
Qed.

Lemma run_preserves_getitems d ks : run_preserves R (getitems d ks).
Proof.
  intros st.
  destruct (getitems_cases d ks st) as [(? & _ & ->)|(? & _ & _ & ->)];
    simpl; reflexivity.
Qed.

End RunPreserves.

Global Instance only_registers_preorder : PreOrder only_registers.
Proof.
  split.
  - by intros w.
  - intros w1 w2 w3 [Ho1 Hb1] [Ho2 Hb2]. split; [congruence|by etrans].
Qed.

Global Instance registers_within_preorder section :
  PreOrder (registers_within section).
Proof.
  split.
  - intros w. exists []. by rewrite (right_id_L [] (++)).
  - intros w1 w2 w3 (n1 & E1 & F1) (n2 & E2 & F2).
    exists (n1 ++ n2). split.
    + by rewrite E2, E1, (assoc_L (++)).
    + by apply Forall_app.
Qed.

Lemma add_listener_only_registers trig fn i o :
  ext_preserves only_registers (add_listener trig fn i o).
Proof.
  intros w. unfold add_listener.
  destruct (w_refuses w _); [reflexivity|].
  split; [done|]. simpl. by apply prefix_app_r.
Qed.

(** [setup_event_handlers] preserves whatever its helpers and the
    listener methods preserve. *)
Lemma setup_event_handlers_preserves
    (R : GenerationWiringContext -> relation World)
    W gen_h demo dit_handler llm_handler dataset_handler
    dataset_section generation_section results_section :
  let ctx :=
    {| gwc_demo := demo;
       gwc_dit_handler := dit_handler;
       gwc_llm_handler := llm_handler;
       gwc_dataset_handler := dataset_handler;
       gwc_dataset_section := dataset_section;
       gwc_generation_section := generation_section;
       gwc_results_section := results_section |} in
  PreOrder (R ctx) ->
  generation_wiring_all (fun A c f => ext_preserves (R c) f) W ->
  (forall trig fn i o, ext_preserves (R ctx) (add_listener trig fn i o)) ->
  run_preserves (R ctx)
    (setup_event_handlers W gen_h demo dit_handler llm_handler
       dataset_handler dataset_section generation_section results_section).
Proof.
  intros ctx HR HW Hadd. specialize (HW ctx).
  destruct HW as (H1 & H2 & H3 & H4 & H5 & H6 & H7 & H8 & H9).
  unfold setup_event_handlers, upload, then_.
  repeat first
    [ apply run_preserves_ret; exact HR
    | apply run_preserves_getitem; exact HR
    | apply run_preserves_getitems; exact HR
    | apply run_preserves_call; auto
    | apply run_preserves_bind; [exact HR| |intros]
    | match goal with p : (_ * _)%type |- _ => destruct p end ].
Qed.

Lemma setup_training_event_handlers_preserves
    (R : TrainingWiringContext -> relation World)
    W demo dit_handler llm_handler training_section :
  let ctx :=
    {| twc_demo := demo;
       twc_dit_handler := dit_handler;
       twc_llm_handler := llm_handler;
       twc_training_section := training_section |} in
  PreOrder (R ctx) ->
  training_wiring_all (fun A c f => ext_preserves (R c) f) W ->
  run_preserves (R ctx)
    (setup_training_event_handlers W demo dit_handler llm_handler
       training_section).
Proof.
  intros ctx HR HW. specialize (HW ctx).
  destruct HW as (H1 & H2 & H3 & H4).
  unfold setup_training_event_handlers.
  repeat first
    [ apply run_preserves_ret; exact HR
    | apply run_preserves_call; auto
    | apply run_preserves_bind; [exact HR| |intros] ].
Qed.

Section TrainingRuns.

Variable W : Wiring.
Variables (demo : ObjId) (dit_handler llm_handler : Handler).
Variable training_section : gmap string Component.

Local Abbreviation tctx :=
  {| twc_demo := demo;
     twc_dit_handler := dit_handler;
     twc_llm_handler := llm_handler;
     twc_training_section := training_section |}.

Local Abbreviation setup_training :=
  (setup_training_event_handlers W demo dit_handler llm_handler
     training_section).

Local Ltac training_helper_raised :=
  let HR := fresh "HR" in
  intros HR; specialize (HR tctx);
  destruct HR as (?H & ?H & ?H & ?H);
  match goal with
  | E : _ = Raises _ _ |- _ =>
      apply (Raises_not_returns _ _ _ _ E); auto
  end.

Local Ltac training_raised_at j :=
  eexists; right; eexists _, j;
  split_and!;
    [reflexivity|by rewrite <- ?(assoc_L (++))|lia|lia|training_helper_raised].

(** Every run of [setup_training_event_handlers] either returns [None]
    after its five calls, each made in the world the previous one left, or
    stops at the first call that raises. *)
Lemma setup_training_event_handlers_cases st :
  exists st',
    (setup_training st = Returns VNone st' /\
     calls st' = calls st ++ training_calls tctx /\
     exists v1 w1 v2 w2 v3 w3 v4 w4 v5,
       register_training_dataset_load_handler W tctx
         "load_json_btn" "load_json_path" "load_json_status" (world st)
         = Returns v1 w1 /\
       register_training_dataset_builder_handlers W tctx w1
         = Returns v2 w2 /\
       register_training_dataset_load_handler W tctx
         "load_existing_dataset_btn" "load_existing_dataset_path"
         "load_existing_status" w2 = Returns v3 w3 /\
       register_training_preprocess_handler W tctx w3 = Returns v4 w4 /\
       register_training_run_handlers W tctx w4 = Returns v5 (world st')) \/
    (exists e j,
       setup_training st = Raises e st' /\
       calls st' = calls st ++ take j (training_calls tctx) /\
       1 <= j <= 5 /\
       ~ training_wiring_returns W).
Proof.
  unfold setup_training_event_handlers, bind, call. simpl.
  destruct (register_training_dataset_load_handler W _ "load_json_btn" _ _ _)
    as [v1 w1|e w1] eqn:E1; simpl; [|training_raised_at 1].
  destruct (register_training_dataset_builder_handlers W _ _)
    as [v2 w2|e w2] eqn:E2; simpl; [|training_raised_at 2].
  destruct (register_training_dataset_load_handler W _
              "load_existing_dataset_btn" _ _ _)
    as [v3 w3|e w3] eqn:E3; simpl; [|training_raised_at 3].
  destruct (register_training_preprocess_handler W _ _)
    as [v4 w4|e w4] eqn:E4; simpl; [|training_raised_at 4].
  destruct (register_training_run_handlers W _ _)
    as [v5 w5|e w5] eqn:E5; simpl; [|training_raised_at 5].
  eexists. left. split_and!; [done|by rewrite <- ?(assoc_L (++))|].
  by exists v1, w1, v2, w2, v3, w3, v4, w4, v5.
Qed.

End TrainingRuns.

Lemma emitted_calls st st' l : calls st' = calls st ++ l -> emitted st st' = l.
Proof. intros E. unfold emitted. rewrite E. by rewrite drop_app_length. Qed.

(** A run that returns is the first kind of run of the case analysis. *)
Lemma setup_event_handlers_Returns W gen_h demo dit_handler llm_handler
    dataset_handler dataset_section generation_section results_section
    st v st' :
  let ctx :=
    {| gwc_demo := demo;
       gwc_dit_handler := dit_handler;
       gwc_llm_handler := llm_handler;
       gwc_dataset_handler := dataset_handler;
       gwc_dataset_section := dataset_section;
       gwc_generation_section := generation_section;
       gwc_results_section := results_section |} in
  setup_event_handlers W gen_h demo dit_handler llm_handler dataset_handler
    dataset_section generation_section results_section st = Returns v st' ->
  v = VNone /\
  exists aci aco mode lf gouts fc n w1 w2,
    emitted st st' =
      generation_calls gen_h ctx aci aco mode lf (gouts ++ [fc]) n /\
    register_generation_service_handlers W ctx (world st)
      = Returns (aci, aco) w1 /\
    build_mode_ui_outputs W ctx w1 = Returns mode w2 /\
    generation_section !! "load_file" = Some lf /\
    mapM (fun k => generation_section !! k)
         load_metadata_generation_outputs = Some gouts /\
    results_section !! "is_format_caption_state" = Some fc.
Proof.
  intros ctx H.
  destruct (setup_event_handlers_cases W gen_h demo dit_handler llm_handler
              dataset_handler dataset_section generation_section
              results_section st)
    as (aci & aco & mode & lf & outs & n & st1 & Hcases).
  simpl in Hcases. fold ctx in Hcases.
  destruct Hcases as
    [(Hrun & Hlog & _ & w1 & w2 & gouts & fc & ? & ? & ? & ? & ? & ->)
    |[(k & Hrun & _)
     |[(e & j & Hrun & _)|[(e & j & Hrun & _)|(e & j & Hrun & _)]]]];
    rewrite Hrun in H; try discriminate.
  injection H as <- <-. split; [done|].
  exists aci, aco, mode, lf, gouts, fc, n, w1, w2.
  split_and!; try done. by apply emitted_calls.
Qed.



(** When every required key is present there is no first missing key. *)
Lemma present_not_first_missing
    (generation_section results_section : gmap string Component) k :
  required_keys_present generation_section results_section ->
  first_missing_required generation_section results_section = Some k ->
  False.
Proof.
  intros [Hg Hr] Hfirst. unfold first_missing_required in Hfirst.
  destruct (first_missing generation_section required_generation_keys)
    as [k0|] eqn:Hk0.
  - apply first_missing_Some in Hk0 as [Hin Hnone].
    destruct (Hg k0 Hin) as [c Hc]. congruence.
  - destruct Hr as [c Hc].
    rewrite bool_decide_eq_false_2 in Hfirst by congruence. discriminate.
Qed.

(** What a helper that keeps the toolkit accepting does, read off a call
    that returned or raised. *)
Lemma ext_keeps_accepting {A} (f : Ext A) w r :
  ext_preserves keeps_accepting f -> f w = r ->
  toolkit_accepts w -> toolkit_accepts (final_state r).
Proof. intros Hf <-. apply Hf. Qed.

Section Claims.

Variable W : Wiring.
Variable gen_h : GenerationHandlers.
Variables (demo : ObjId) (dit_handler llm_handler dataset_handler : Handler).
Variables (dataset_section generation_section results_section
            training_section : gmap string Component).

Local Abbreviation ctx :=
  {| gwc_demo := demo;
     gwc_dit_handler := dit_handler;
     gwc_llm_handler := llm_handler;
     gwc_dataset_handler := dataset_handler;
     gwc_dataset_section := dataset_section;
     gwc_generation_section := generation_section;
     gwc_results_section := results_section |}.

Local Abbreviation setup :=
  (setup_event_handlers W gen_h demo dit_handler llm_handler dataset_handler
     dataset_section generation_section results_section).

Local Abbreviation tctx :=
  {| twc_demo := demo;
     twc_dit_handler := dit_handler;
     twc_llm_handler := llm_handler;
     twc_training_section := training_section |}.

Local Abbreviation setup_training :=
  (setup_training_event_handlers W demo dit_handler llm_handler
     training_section).






(** A missing key and the presence of all keys exclude each other. *)
Lemma missing_not_present :
  missing_required_key generation_section results_section ->
  required_keys_present generation_section results_section -> False.
Proof.
  intros [(k & Hin & Hk)|Hfc] [Hg Hr].
  - destruct (Hg k Hin) as [c Hc]. congruence.
  - destruct Hr as [c Hc]. congruence.
Qed.

(** C5.  When [generation_section] lacks [load_file] or one of the
    output keys, or [results_section] lacks [is_format_caption_state],
    the call to [setup_event_handlers] itself raises: it does not return,
    and it raises before the upload and its chained step are registered,
    so nothing is left to fail when an event fires.  Unless a helper
    raised first, the exception is the [KeyError] of a missing key. *)
Theorem missing_key_fails_at_setup st :
  missing_required_key generation_section results_section ->
  exists e st',
    setup st = Raises e st' /\
    times_called fn_upload (emitted st st') = 0 /\
    times_called fn_then (emitted st st') = 0 /\
    (generation_wiring_returns W ->
     exists k,
       e = KeyError k /\
       (k ∈ required_generation_keys /\ generation_section !! k = None \/
        k = "is_format_caption_state" /\ results_section !! k = None)).
Proof.
  intros Hmissing.
  destruct (setup_event_handlers_cases W gen_h demo dit_handler llm_handler
              dataset_handler dataset_section generation_section
              results_section st)
    as (aci & aco & mode & lf & outs & n & st1 & Hcases).
  simpl in Hcases.
  destruct Hcases as
    [(_ & _ & Hall & _)
    |[(k & Hrun & Hlog & Hk)
     |[(e & j & Hrun & Hlog & Hj & Hnot)
      |[(e & j & Hrun & Hlog & Hj & Hnot & Hall)
       |(e & j & Hrun & Hlog & Hj & Hall)]]]].
  - destruct (missing_not_present Hmissing Hall).
  - exists (KeyError k), st1. rewrite (emitted_calls _ _ _ Hlog).
    split_and!; [done|done|done|]. intros _. by exists k.
  - exists e, st1. rewrite (emitted_calls _ _ _ Hlog).
    assert (j = 1 \/ j = 2 \/ j = 3 \/ j = 4) as [->|[->|[->| ->]]] by lia;
      (split_and!; [done|done|done|by intros ?]).
  - destruct (missing_not_present Hmissing Hall).
  - destruct (missing_not_present Hmissing Hall).
Qed.


Lemma training_log_of_run st :
  let r := setup_training st in
  let log := emitted st (final_state r) in
  log `prefix_of` training_calls tctx /\
  (forall v st', r = Returns v st' -> v = VNone /\ log = training_calls tctx) /\
  (training_wiring_returns W -> exists st', r = Returns VNone st').
Proof.
  intros r log. subst r log.
  destruct (setup_training_event_handlers_cases W demo dit_handler
              llm_handler training_section st)
    as (st1 & [(Hrun & Hlog & _)|(e & j & Hrun & Hlog & Hj & Hnot)]);
    rewrite Hrun; simpl; rewrite (emitted_calls _ _ _ Hlog).
  - split_and!; [done| |by eauto].
    intros v st' [= <- <-]. done.
  - split_and!; [apply prefix_take|done|done].
Qed.


(** With helpers that return and leave the toolkit accepting, a toolkit
    that accepts registrations to begin with, and all looked-up keys
    present, [setup_event_handlers] returns [None]. *)
Lemma setup_event_handlers_total st :
  generation_wiring_returns W ->
  generation_wiring_keeps_accepting W ->
  toolkit_accepts (world st) ->
  required_keys_present generation_section results_section ->
  exists st', setup st = Returns VNone st' /\ toolkit_accepts (world st').
Proof.
  intros Hret Hkeep Hacc Hall. specialize (Hret ctx). specialize (Hkeep ctx).
  destruct Hret as (H1 & H2 & H3 & H4 & H5 & H6 & H7 & H8 & H9).
  destruct Hkeep as (K1 & K2 & K3 & K4 & K5 & K6 & K7 & K8 & K9).
  destruct (setup_event_handlers_steps W gen_h demo dit_handler llm_handler
              dataset_handler dataset_section generation_section
              results_section st)
    as [(aci & aco & w1 & mode & w2 & v3 & w3 & v4 & w4 &
         E1 & E2 & E3 & E4 &
         [(k & Hk & Hrun)
         |(lf & gouts & fc & Hlf & Hg & Hfc &
           [(v7 & w7 & v8 & w8 & v9 & w9 & v10 & w10 & v11 & w11 &
             _ & _ & E7 & E8 & E9 & E10 & E11 & Hrun)
           |[(e & [(Hup & _)|(_ & Hthen & _)])
            |(j & c & w & e' & w' & Hj & Hc & Hraise & _)]])])
       |(aci & aco & mode & j & c & w & e' & w' & Hj & Hc & Hraise & _)].
  - destruct (present_not_first_missing _ _ k Hall Hk).
  - eexists. split; [exact Hrun|]. simpl.
    pose proof (ext_keeps_accepting _ _ _ K1 E1 Hacc) as A1.
    pose proof (ext_keeps_accepting _ _ _ K2 E2 A1) as A2.
    pose proof (ext_keeps_accepting _ _ _ (K3 _ _) E3 A2) as A3.
    pose proof (ext_keeps_accepting _ _ _ (K4 _ _ _) E4 A3) as A4.
    assert (toolkit_accepts
              (chain_world gen_h llm_handler lf (gouts ++ [fc]) aci aco w4))
      as A6 by exact A4.
    pose proof (ext_keeps_accepting _ _ _ K5 E7 A6) as A7.
    pose proof (ext_keeps_accepting _ _ _ (K6 _) E8 A7) as A8.
    pose proof (ext_keeps_accepting _ _ _ K7 E9 A8) as A9.
    pose proof (ext_keeps_accepting _ _ _ K8 E10 A9) as A10.
    exact (ext_keeps_accepting _ _ _ K9 E11 A10).
  - exfalso.
    pose proof (ext_keeps_accepting _ _ _ K1 E1 Hacc) as A1.
    pose proof (ext_keeps_accepting _ _ _ K2 E2 A1) as A2.
    pose proof (ext_keeps_accepting _ _ _ (K3 _ _) E3 A2) as A3.
    pose proof (ext_keeps_accepting _ _ _ (K4 _ _ _) E4 A3) as A4.
    rewrite A4 in Hup. discriminate.
  - exfalso.
    pose proof (ext_keeps_accepting _ _ _ K1 E1 Hacc) as A1.
    pose proof (ext_keeps_accepting _ _ _ K2 E2 A1) as A2.
    pose proof (ext_keeps_accepting _ _ _ (K3 _ _) E3 A2) as A3.
    pose proof (ext_keeps_accepting _ _ _ (K4 _ _ _) E4 A3) as A4.
    rewrite A4 in Hthen. discriminate.
  - exfalso.
    assert (j = 6 \/ j = 7 \/ j = 8 \/ j = 9 \/ j = 10)
      as [->|[->|[->|[->| ->]]]] by lia;
      injection Hc as <-; simpl in Hraise;
      eapply Raises_not_returns; eauto.
  - exfalso.
    assert (j = 0 \/ j = 1 \/ j = 2 \/ j = 3) as [->|[->|[->| ->]]] by lia;
      injection Hc as <-; simpl in Hraise;
      eapply Raises_not_returns; eauto.
Qed.

(** C6.  Provided the registration helpers only register (they leave
    every object as it was and keep the bindings already made), so do
    [setup_event_handlers] and [setup_training_event_handlers], whether
    they return or raise: the states of [dit_handler], [llm_handler] and
    [dataset_handler] are the same after the call as before.  What either
    function returns is [None].  [setup_training_event_handlers] does
    return it when the helpers return; [setup_event_handlers] does when,
    besides, the keys it looks up are present and the toolkit takes the two
    listener registrations (it accepts registrations when the call starts
    and the helpers leave it so). *)
Theorem setup_returns_none_and_only_registers st :
  wiring_only_registers W ->
  let r := setup st in
  let rt := setup_training st in
  (only_registers (world st) (world (final_state r)) /\
   only_registers (world st) (world (final_state rt))) /\
  Forall (fun h =>
            w_objects (world (final_state r)) !! h
              = w_objects (world st) !! h /\
            w_objects (world (final_state rt)) !! h
              = w_objects (world st) !! h)
         [dit_handler; llm_handler; dataset_handler] /\
  (forall v st', r = Returns v st' -> v = VNone) /\
  (forall v st', rt = Returns v st' -> v = VNone) /\
  (generation_wiring_returns W ->
   generation_wiring_keeps_accepting W ->
   toolkit_accepts (world st) ->
   required_keys_present generation_section results_section ->
   exists st', r = Returns VNone st') /\
  (training_wiring_returns W -> exists st', rt = Returns VNone st').
Proof.
  intros [Hgen Htrain] r rt.
  assert (only_registers (world st) (world (final_state r))) as Hr.
  { apply (setup_event_handlers_preserves (fun _ => only_registers));
      [apply _|done|apply add_listener_only_registers]. }
  assert (only_registers (world st) (world (final_state rt))) as Hrt.
  { apply (setup_training_event_handlers_preserves (fun _ => only_registers));
      [apply _|done]. }
  split; [done|].
  split.
  { destruct Hr as [Hr _], Hrt as [Hrt _]. rewrite Hr, Hrt.
    by repeat constructor. }
  split.
  { intros v st' H.
    by apply setup_event_handlers_Returns in H as [-> _]. }
  destruct (training_log_of_run st) as (_ & Hnone & Htotal).
  split; [intros v st' H; by destruct (Hnone v st' H)|].
  split; [|exact Htotal].
  intros Hret Hkeep Hacc Hall.
  destruct (setup_event_handlers_total st Hret Hkeep Hacc Hall)
    as (st' & Hrun & _).
  by exists st'.
Qed.

(** What a helper that only registers does to the bindings, read off a
    call that returned or raised. *)
Lemma ext_only_registers_prefix {A} (f : Ext A) w r :
  ext_preserves only_registers f -> f w = r ->
  w_bindings w `prefix_of` w_bindings (final_state r).
Proof. intros Hf <-. by destruct (Hf w). Qed.

(** C4.  In every run of [setup_training_event_handlers] the dataset-load
    registration is called at most twice, and in a run that returns exactly
    twice: first with the keys [load_json_btn], [load_json_path],
    [load_json_status], then with [load_existing_dataset_btn],
    [load_existing_dataset_path], [load_existing_status], which differ from
    the first in every position.  With the registration as the spec
    describes it, and the other helpers keeping the bindings that exist,
    the event graph ends up holding both bindings, the first at an earlier
    position than the second, each on the button under its own key:
    neither replaces the other. *)
Theorem dataset_load_registered_twice st :
  let r := setup_training st in
  let log := emitted st (final_state r) in
  let top := ("load_json_btn", "load_json_path", "load_json_status")%string in
  let pre := ("load_existing_dataset_btn", "load_existing_dataset_path",
              "load_existing_status")%string in
  omap dataset_load_keys_of log `prefix_of` [top; pre] /\
  times_called fn_register_training_dataset_load_handler log <= 2 /\
  (returned r = true ->
   omap dataset_load_keys_of log = [top; pre] /\
   times_called fn_register_training_dataset_load_handler log = 2) /\
  (top.1.1 <> pre.1.1 /\ top.1.2 <> pre.1.2 /\ top.2 <> pre.2) /\
  (forall action button1 path1 status1 button2 path2 status2,
      register_training_dataset_load_handler W
        = spec_register_training_dataset_load_handler action ->
      training_wiring_all (fun A _ f => ext_preserves only_registers f) W ->
      training_section !! "load_json_btn" = Some button1 ->
      training_section !! "load_json_path" = Some path1 ->
      training_section !! "load_json_status" = Some status1 ->
      training_section !! "load_existing_dataset_btn" = Some button2 ->
      training_section !! "load_existing_dataset_path" = Some path2 ->
      training_section !! "load_existing_status" = Some status2 ->
      returned r = true ->
      exists i j,
        length (w_bindings (world st)) <= i /\ i < j /\
        w_bindings (world (final_state r)) !! i
          = Some (dataset_load_binding action button1 path1 status1) /\
        w_bindings (world (final_state r)) !! j
          = Some (dataset_load_binding action button2 path2 status2)).
Proof.
  intros r log top pre. subst r log top pre.
  destruct (setup_training_event_handlers_cases W demo dit_handler
              llm_handler training_section st)
    as (st1 & [(Hrun & Hlog & Hsteps)|(e & j & Hrun & Hlog & Hj & Hnot)]);
    rewrite Hrun; simpl; rewrite (emitted_calls _ _ _ Hlog).
  - split_and!; [done|vm_compute; lia|done|done..|].
    intros action b1 p1 s1 b2 p2 s2 Hspec HW Hb1 Hp1 Hs1 Hb2 Hp2 Hs2 _.
    destruct Hsteps as (v1 & w1 & v2 & w2 & v3 & w3 & v4 & w4 & v5 &
                        E1 & E2 & E3 & E4 & E5).
    destruct (HW tctx) as (_ & Hbuilder & Hpreprocess & Hrunh).
    rewrite Hspec in E1, E3.
    unfold spec_register_training_dataset_load_handler in E1, E3.
    simpl in E1, E3.
    rewrite Hb1, Hp1, Hs1 in E1. rewrite Hb2, Hp2, Hs2 in E3.
    unfold add_listener in E1, E3.
    destruct (w_refuses (world st) _) as [?|]; [discriminate E1|].
    destruct (w_refuses w2 _) as [?|]; [discriminate E3|].
    injection E1 as _ <-. injection E3 as _ <-.
    apply (ext_only_registers_prefix _ _ _ Hbuilder) in E2.
    apply (ext_only_registers_prefix _ _ _ Hpreprocess) in E4.
    apply (ext_only_registers_prefix _ _ _ Hrunh) in E5.
    simpl in E2, E4, E5.
    exists (length (w_bindings (world st))), (length (w_bindings w2)).
    split_and!.
    + done.
    + apply prefix_length in E2. rewrite length_app in E2. simpl in E2. lia.
    + eapply prefix_lookup_Some; [|exact E5].
      eapply prefix_lookup_Some; [|exact E4].
      apply lookup_app_l_Some.
      eapply prefix_lookup_Some; [|exact E2].
      apply list_lookup_middle. done.
    + eapply prefix_lookup_Some; [|exact E5].
      eapply prefix_lookup_Some; [|exact E4].
      apply list_lookup_middle. done.
  - assert (j = 1 \/ j = 2 \/ j = 3 \/ j = 4 \/ j = 5)
      as [->|[->|[->|[->| ->]]]] by lia;
      (split_and!;
        [ simpl; first [done|by eexists] | vm_compute; lia | done
        | done.. | by intros ] ).
Qed.

(** A widget outside a component map is touched by no binding that stays
    within the map. *)
Lemma registers_within_outside (section : gmap string Component)
    (new : list Binding) (c : Component) :
  Forall (fun b => forall c', c' ∈ binding_components b ->
                              exists k, section !! k = Some c') new ->
  (forall k, section !! k <> Some c) ->
  Forall (fun b => c ∉ binding_components b) new.
Proof.
  intros Hnew Hc. eapply Forall_impl; [exact Hnew|].
  intros b Hb Hin. destruct (Hb c Hin) as [k Hk]. by apply (Hc k).
Qed.

(** C10.  [setup_training_event_handlers] takes a root container, two
    handlers and the training component map, and nothing else.  The
    context it hands to every helper holds exactly those four, and none of
    its calls is given a generation wiring context.  Provided the training
    helpers register only on widgets of the training map of their context,
    every binding a run adds touches widgets of [training_section] only, so
    a widget of [generation_section] or [results_section] that is not also
    in [training_section] gets no new binding. *)
Theorem training_setup_is_local st :
  let rt := setup_training st in
  let log := emitted st (final_state rt) in
  (twc_demo tctx = demo /\ twc_dit_handler tctx = dit_handler /\
   twc_llm_handler tctx = llm_handler /\
   twc_training_section tctx = training_section) /\
  Forall (fun c => training_context_of c = Some tctx /\
                   generation_context_of c = None) log /\
  (training_wiring_local W ->
   exists new,
     w_bindings (world (final_state rt)) = w_bindings (world st) ++ new /\
     Forall (fun b => forall c, c ∈ binding_components b ->
                                exists k, training_section !! k = Some c)
            new /\
     forall c k,
       generation_section !! k = Some c \/ results_section !! k = Some c ->
       (forall k', training_section !! k' <> Some c) ->
       Forall (fun b => c ∉ binding_components b) new).
Proof.
  intros rt log. subst rt log.
  split; [done|]. split.
  - destruct (training_log_of_run st) as (Hprefix & _).
    simpl in Hprefix. destruct Hprefix as [rest Hfull].
    assert (Forall (fun c => training_context_of c = Some tctx /\
                             generation_context_of c = None)
                   (training_calls tctx)) as Hall
      by (by repeat constructor).
    rewrite Hfull in Hall. by apply Forall_app in Hall as [Hall _].
  - intros Hlocal.
    destruct (setup_training_event_handlers_preserves
                (fun c => registers_within (twc_training_section c))
                W demo dit_handler llm_handler training_section
                (registers_within_preorder _) Hlocal st)
      as (new & Hnew & Hwithin).
    exists new. split_and!; [done|done|].
    intros c k _ Hout. by apply (registers_within_outside training_section).
Qed.

End Claims.

(** ** The example inputs meet the assumptions *)

Lemma returning_preserves {A} (R : relation World) `{!Reflexive R} (a : A) :
  ext_preserves R (returning a).
Proof. intros w. simpl. reflexivity. Qed.

Lemma returning_returns {A} (a : A) : ext_returns (returning a).
Proof. intros w. by exists a, w. Qed.

Lemma spec_load_only_registers action ctx b p s :
  ext_preserves only_registers
    (spec_register_training_dataset_load_handler action ctx b p s).
Proof.
  intros w. unfold spec_register_training_dataset_load_handler.
  destruct (twc_training_section ctx !! b); [|done].
  destruct (twc_training_section ctx !! p); [|done].
  destruct (twc_training_section ctx !! s); [|done].
  unfold add_listener. destruct (w_refuses w _); [done|].
  simpl. split; [done|]. by apply prefix_app_r.
Qed.

Lemma spec_load_registers_within action ctx b p s :
  ext_preserves (registers_within (twc_training_section ctx))
    (spec_register_training_dataset_load_handler action ctx b p s).
Proof.
  intros w. unfold spec_register_training_dataset_load_handler.
  destruct (twc_training_section ctx !! b) as [button|] eqn:Hb;
    [|reflexivity].
  destruct (twc_training_section ctx !! p) as [path|] eqn:Hp;
    [|reflexivity].
  destruct (twc_training_section ctx !! s) as [status|] eqn:Hs;
    [|reflexivity].
  unfold add_listener. destruct (w_refuses w _); [reflexivity|].
  simpl. eexists. split; [reflexivity|].
  constructor; [|constructor].
  intros c Hc. unfold binding_components in Hc. simpl in Hc.
  repeat (apply elem_of_cons in Hc as [->|Hc]; [by eexists|]).
  by apply elem_of_nil in Hc.
Qed.

Lemma example_wiring_generation_all
    (P : forall A, GenerationWiringContext -> Ext A -> Prop) aci aco mode load :
  (forall A ctx (a : A), P A ctx (returning a)) ->
  generation_wiring_all P (example_wiring aci aco mode load).
Proof. intros HP ctx. simpl. split_and!; intros; apply HP. Qed.

Lemma example_wiring_training_all
    (P : forall A, TrainingWiringContext -> Ext A -> Prop) aci aco mode load :
  (forall A ctx (a : A), P A ctx (returning a)) ->
  (forall ctx b p s, P _ ctx (load ctx b p s)) ->
  training_wiring_all P (example_wiring aci aco mode load).
Proof. intros HP Hload ctx. simpl. split_and!; intros; auto. Qed.

Lemma example_inert_wiring_only_registers :
  wiring_only_registers example_inert_wiring.
Proof.
  split.
  - apply example_wiring_generation_all. intros. by apply returning_preserves.
  - apply example_wiring_training_all; intros; by apply returning_preserves.
Qed.

Lemma example_inert_wiring_generation_returns :
  generation_wiring_returns example_inert_wiring.
Proof.
  apply example_wiring_generation_all. intros. apply returning_returns.
Qed.

Lemma example_inert_wiring_training_returns :
  training_wiring_returns example_inert_wiring.
Proof.
  apply example_wiring_training_all; intros; apply returning_returns.
Qed.

Lemma example_spec_wiring_only_registers :
  training_wiring_all (fun A _ f => ext_preserves only_registers f)
    example_spec_wiring.
Proof.
  apply example_wiring_training_all; intros.
  - by apply returning_preserves.
  - apply spec_load_only_registers.
Qed.

Lemma example_spec_wiring_local : training_wiring_local example_spec_wiring.
Proof.
  apply (example_wiring_training_all
           (fun A ctx f =>
              ext_preserves (registers_within (twc_training_section ctx)) f));
    intros.
  - apply returning_preserves. apply _.
  - apply spec_load_registers_within.
Qed.

Lemma example_keys_present :
  required_keys_present example_generation_section example_results_section.
Proof.
  split; [|by eexists].
  intros k Hk.
  repeat (apply elem_of_cons in Hk as [->|Hk]; [vm_compute; by eexists|]).
  by apply elem_of_nil in Hk.
Qed.

Lemma example_state_accepts : toolkit_accepts (world example_state).
Proof. intros b. reflexivity. Qed.

Lemma example_populated_state_accepts :
  toolkit_accepts (world example_populated_state).
Proof. intros b. reflexivity. Qed.

Lemma returning_keeps_accepting {A} (a : A) :
  ext_preserves keeps_accepting (returning a).
Proof. intros w Hw. exact Hw. Qed.

Lemma registering_only_registers {A} b (a : A) :
  ext_preserves only_registers (registering b a).
Proof. intros w. simpl. split; [done|]. by apply prefix_app_r. Qed.

Lemma registering_returns {A} b (a : A) : ext_returns (registering b a).
Proof. intros w. by eexists _, _. Qed.

Lemma registering_keeps_accepting {A} b (a : A) :
  ext_preserves keeps_accepting (registering b a).
Proof. intros w Hw. exact Hw. Qed.

Lemma example_registering_wiring_generation_all
    (P : forall A, GenerationWiringContext -> Ext A -> Prop) :
  (forall A ctx (a : A), P A ctx (returning a)) ->
  (forall A ctx (a : A), P A ctx (registering example_binding a)) ->
  generation_wiring_all P example_registering_wiring.
Proof. intros HP HQ ctx. simpl. split_and!; intros; auto. Qed.

Lemma example_registering_wiring_training_all
    (P : forall A, TrainingWiringContext -> Ext A -> Prop) :
  (forall A ctx (a : A), P A ctx (returning a)) ->
  (forall A ctx (a : A), P A ctx (registering example_binding a)) ->
  training_wiring_all P example_registering_wiring.
Proof. intros HP HQ ctx. simpl. split_and!; intros; auto. Qed.

Lemma example_registering_wiring_only_registers :
  wiring_only_registers example_registering_wiring.
Proof.
  split.
  - apply example_registering_wiring_generation_all; intros;
      [by apply returning_preserves|apply registering_only_registers].
  - apply example_registering_wiring_training_all; intros;
      [by apply returning_preserves|apply registering_only_registers].
Qed.

Lemma example_registering_wiring_generation_returns :
  generation_wiring_returns example_registering_wiring.
Proof.
  apply example_registering_wiring_generation_all; intros;
    [apply returning_returns|apply registering_returns].
Qed.

Lemma example_registering_wiring_keeps_accepting :
  generation_wiring_keeps_accepting example_registering_wiring.
Proof.
  apply example_registering_wiring_generation_all; intros;
    [apply returning_keeps_accepting|apply registering_keeps_accepting].
Qed.

Lemma example_registering_wiring_training_returns :
  training_wiring_returns example_registering_wiring.
Proof.
  apply example_registering_wiring_training_all; intros;
    [apply returning_returns|apply registering_returns].
Qed.

(** A run with the example helpers returns, and its log is the full one
    with the lists those helpers hand out. *)
Lemma example_wiring_run aci aco mode st :
  toolkit_accepts (world st) ->
  exists st' lf outs n,
    toolkit_accepts (world st') /\
    setup_event_handlers (example_wiring aci aco mode example_load)
      example_gen_h 0 1 2 3 ∅ example_generation_section
      example_results_section st = Returns VNone st' /\
    emitted st st' =
      generation_calls example_gen_h
        {| gwc_demo := 0;
           gwc_dit_handler := 1;
           gwc_llm_handler := 2;
           gwc_dataset_handler := 3;
           gwc_dataset_section := ∅;
           gwc_generation_section := example_generation_section;
           gwc_results_section := example_results_section |}
        aci aco mode lf outs n.
Proof.
  intros Hacc.
  destruct (setup_event_handlers_total
              (example_wiring aci aco mode example_load) example_gen_h
              0 1 2 3 ∅ example_generation_section example_results_section
              st) as (st' & Hrun & Hacc').
  { apply example_wiring_generation_all. intros. apply returning_returns. }
  { apply example_wiring_generation_all. intros.
    apply returning_keeps_accepting. }
  { exact Hacc. }
  { apply example_keys_present. }
  exists st'.
  destruct (setup_event_handlers_Returns _ _ _ _ _ _ _ _ _ _ _ _ Hrun)
    as (_ & aci' & aco' & mode' & lf & gouts & fc & n & w1 & w2 &
        Hlog & Hs & Hb & _).
  change (Returns (aci, aco) (world st) = Returns (aci', aco') w1) in Hs.
  injection Hs as <- <- <-.
  change (Returns mode (world st) = Returns mode' w2) in Hb.
  injection Hb as <- <-.
  exists lf, (gouts ++ [fc]), n.
  split_and!; [exact Hacc'|exact Hrun|exact Hlog].
Qed.

Lemma example_generation_run_returns :
  example_generation_setup example_inert_wiring example_state
  = Returns VNone
      (final_state (example_generation_setup example_inert_wiring
                      example_state)).
Proof.
  destruct (example_wiring_run [1] [2] [3] example_state
              example_state_accepts)
    as (st' & lf & outs & n & _ & Hrun & _).
  unfold example_generation_setup, example_inert_wiring.
  by rewrite Hrun.
Qed.

Lemma example_training_run_returns W :
  returned (example_training_setup W example_state) = true ->
  example_training_setup W example_state
  = Returns VNone (final_state (example_training_setup W example_state)).
Proof.
  intros H.
  destruct (training_log_of_run W 0 1 2 example_training_section
              example_state) as (_ & Hnone & _).
  unfold example_training_setup in *.
  destruct (setup_training_event_handlers W 0 1 2 example_training_section
              example_state) as [v st'|e st']; [|discriminate].
  by destruct (Hnone v st' eq_refl) as [-> _].
Qed.

(** C8.  [setup_training_event_handlers] returns [None], and the calls it
    makes are fixed by its four arguments alone: whatever the helpers
    return and whatever they do to the world, a run that returns has made
    the same five calls with the same arguments, so no helper's result
    reaches a later call.  [setup_event_handlers] differs: helpers that
    return different lists lead to different later calls. *)
Theorem training_setup_threads_no_state :
  (forall W demo dit_handler llm_handler training_section st v st',
      setup_training_event_handlers W demo dit_handler llm_handler
        training_section st = Returns v st' ->
      v = VNone /\
      emitted st st' =
        training_calls
          {| twc_demo := demo;
             twc_dit_handler := dit_handler;
             twc_llm_handler := llm_handler;
             twc_training_section := training_section |}) /\
  (forall W1 W2 demo dit_handler llm_handler training_section
          st1 st2 v1 v2 st1' st2',
      setup_training_event_handlers W1 demo dit_handler llm_handler
        training_section st1 = Returns v1 st1' ->
      setup_training_event_handlers W2 demo dit_handler llm_handler
        training_section st2 = Returns v2 st2' ->
      emitted st1 st1' = emitted st2 st2') /\
  (exists W1 W2 gen_h demo dit_handler llm_handler dataset_handler
          dataset_section generation_section results_section st st1' st2',
      setup_event_handlers W1 gen_h demo dit_handler llm_handler
        dataset_handler dataset_section generation_section results_section
        st = Returns VNone st1' /\
      setup_event_handlers W2 gen_h demo dit_handler llm_handler
        dataset_handler dataset_section generation_section results_section
        st = Returns VNone st2' /\
      emitted st st1' <> emitted st st2').
Proof.
  assert (forall W demo dit_handler llm_handler training_section st v st',
      setup_training_event_handlers W demo dit_handler llm_handler
        training_section st = Returns v st' ->
      v = VNone /\
      emitted st st' =
        training_calls
          {| twc_demo := demo;
             twc_dit_handler := dit_handler;
             twc_llm_handler := llm_handler;
             twc_training_section := training_section |}) as Hfixed.
  { intros W demo dit llm tsec st v st' H.
    destruct (training_log_of_run W demo dit llm tsec st) as (_ & Hret & _).
    destruct (Hret v st' H) as [-> Hlog]. split; [done|].
    simpl in Hlog. by rewrite H in Hlog. }
  split_and!.
  - exact Hfixed.
  - intros W1 W2 demo dit llm tsec st1 st2 v1 v2 st1' st2' H1 H2.
    destruct (Hfixed _ _ _ _ _ _ _ _ H1) as [_ ->].
    by destruct (Hfixed _ _ _ _ _ _ _ _ H2) as [_ ->].
  - exists (example_wiring [1] [2] [3] example_load),
           (example_wiring [4] [5] [6] example_load),
           example_gen_h, 0, 1, 2, 3, ∅,
           example_generation_section, example_results_section,
           example_state.
    destruct (example_wiring_run [1] [2] [3] example_state
                example_state_accepts)
      as (st1' & lf1 & outs1 & n1 & _ & H1 & Hlog1).
    destruct (example_wiring_run [4] [5] [6] example_state
                example_state_accepts)
      as (st2' & lf2 & outs2 & n2 & _ & H2 & Hlog2).
    exists st1', st2'. split_and!; [exact H1|exact H2|].
    rewrite Hlog1, Hlog2. intros Heq.
    apply (f_equal (omap auto_checkbox_lists_of)) in Heq.
    discriminate Heq.
Qed.

(** ** The theorems at the example inputs *)





Lemma missing_key_fails_at_setup_witness :
  missing_required_key ∅ example_results_section /\
  exists e st',
    setup_event_handlers example_inert_wiring example_gen_h 0 1 2 3 ∅ ∅
      example_results_section example_state = Raises e st'.
Proof.
  assert (missing_required_key ∅ example_results_section) as Hmissing.
  { left. exists "load_file"%string. split; [|reflexivity].
    apply list_elem_of_here. }
  split; [exact Hmissing|].
  destruct (missing_key_fails_at_setup example_inert_wiring example_gen_h
              0 1 2 3 ∅ ∅ example_results_section example_state Hmissing)
    as (e & st' & Hraise & _).
  by exists e, st'.
Defined.


Lemma setup_returns_none_and_only_registers_witness :
  (wiring_only_registers example_registering_wiring /\
   generation_wiring_returns example_registering_wiring /\
   generation_wiring_keeps_accepting example_registering_wiring /\
   toolkit_accepts (world example_populated_state) /\
   required_keys_present example_generation_section example_results_section /\
   training_wiring_returns example_registering_wiring) /\
  (exists st',
      example_generation_setup example_registering_wiring
        example_populated_state = Returns VNone st') /\
  (exists st',
      example_training_setup example_registering_wiring
        example_populated_state = Returns VNone st') /\
  (w_objects (world (final_state
                       (example_generation_setup example_registering_wiring
                          example_populated_state))) !! 1
   = Some (VStr "dit") /\
   w_objects (world (final_state
                       (example_generation_setup example_registering_wiring
                          example_populated_state))) !! 2
   = Some (VStr "llm") /\
   w_objects (world (final_state
                       (example_generation_setup example_registering_wiring
                          example_populated_state))) !! 3
   = Some (VStr "dataset")) /\
  (w_objects (world (final_state
                       (example_training_setup example_registering_wiring
                          example_populated_state))) !! 1
   = Some (VStr "dit") /\
   w_objects (world (final_state
                       (example_training_setup example_registering_wiring
                          example_populated_state))) !! 2
   = Some (VStr "llm") /\
   w_objects (world (final_state
                       (example_training_setup example_registering_wiring
                          example_populated_state))) !! 3
   = Some (VStr "dataset")) /\
  [example_binding]
    `prefix_of`
    w_bindings (world (final_state
                         (example_generation_setup example_registering_wiring
                            example_populated_state))) /\
  w_bindings (world (final_state
                       (example_training_setup example_registering_wiring
                          example_populated_state)))
  = [example_binding; example_binding; example_binding].
Proof.
  pose proof example_registering_wiring_only_registers as Honly.
  pose proof example_registering_wiring_generation_returns as Hgen.
  pose proof example_registering_wiring_keeps_accepting as Hkeep.
  pose proof example_populated_state_accepts as Hacc.
  pose proof example_keys_present as Hkeys.
  pose proof example_registering_wiring_training_returns as Htrain.
  split; [by split_and!|].
  pose proof (setup_returns_none_and_only_registers
                example_registering_wiring
                example_gen_h 0 1 2 3 ∅ example_generation_section
                example_results_section example_training_section
                example_populated_state Honly) as Hsetup.
  cbv zeta in Hsetup.
  destruct Hsetup
    as (((_ & Hpre) & _) & Hobjects & _ & _ & Hreturns & Hreturns_t).
  apply Forall_cons in Hobjects as [[Hg1 Ht1] Hobjects].
  apply Forall_cons in Hobjects as [[Hg2 Ht2] Hobjects].
  apply Forall_cons in Hobjects as [[Hg3 Ht3] _].
  split; [exact (Hreturns Hgen Hkeep Hacc Hkeys)|].
  split; [exact (Hreturns_t Htrain)|].
  split.
  { split; [exact (eq_trans Hg1 eq_refl)|].
    split; [exact (eq_trans Hg2 eq_refl)|exact (eq_trans Hg3 eq_refl)]. }
  split.
  { split; [exact (eq_trans Ht1 eq_refl)|].
    split; [exact (eq_trans Ht2 eq_refl)|exact (eq_trans Ht3 eq_refl)]. }
  split; [exact Hpre|].
  vm_compute. reflexivity.
Defined.

Lemma dataset_load_registered_twice_witness :
  returned (example_training_setup example_spec_wiring example_state)
    = true /\
  exists i j,
    i < j /\
    w_bindings
      (world (final_state
                (example_training_setup example_spec_wiring example_state)))
      !! i = Some (dataset_load_binding example_load_action 60 61 62) /\
    w_bindings
      (world (final_state
                (example_training_setup example_spec_wiring example_state)))
      !! j = Some (dataset_load_binding example_load_action 63 64 65).
Proof.
  assert (returned (example_training_setup example_spec_wiring
                      example_state) = true) as Hret
    by (vm_compute; reflexivity).
  split; [exact Hret|].
  pose proof (dataset_load_registered_twice example_spec_wiring 0 1 2
                example_training_section example_state) as Hload.
  cbv zeta in Hload.
  destruct Hload as (_ & _ & _ & _ & Hboth).
  destruct (Hboth example_load_action 60 61 62 63 64 65)
    as (i & j & _ & Hij & Hi & Hj).
  - reflexivity.
  - exact example_spec_wiring_only_registers.
  - vm_compute. reflexivity.
  - vm_compute. reflexivity.
  - vm_compute. reflexivity.
  - vm_compute. reflexivity.
  - vm_compute. reflexivity.
  - vm_compute. reflexivity.
  - exact Hret.
  - exists i, j. split_and!; [exact Hij|exact Hi|exact Hj].
Defined.

Lemma training_setup_is_local_witness :
  training_wiring_local example_spec_wiring /\
  exists new,
    w_bindings
      (world (final_state
                (example_training_setup example_spec_wiring example_state)))
      = w_bindings (world example_state) ++ new /\
    Forall (fun b => forall c, c ∈ binding_components b ->
                               exists k, example_training_section !! k = Some c)
           new.
Proof.
  pose proof example_spec_wiring_local as Hlocal.
  split; [exact Hlocal|].
  pose proof (training_setup_is_local example_spec_wiring 0 1 2
                example_generation_section example_results_section
                example_training_section example_state) as Htrain.
  cbv zeta in Htrain.
  destruct Htrain as (_ & _ & Hnew).
  destruct (Hnew Hlocal) as (new & Hbindings & Hwithin & _).
  exists new. split; [exact Hbindings|exact Hwithin].
Defined.

Lemma training_setup_threads_no_state_witness :
  example_training_setup example_inert_wiring example_state
    = Returns VNone
        (final_state
           (example_training_setup example_inert_wiring example_state)) /\
  emitted example_state
    (final_state (example_training_setup example_inert_wiring example_state))
    = training_calls
        {| twc_demo := 0;
           twc_dit_handler := 1;
           twc_llm_handler := 2;
           twc_training_section := example_training_section |}.
Proof.
  assert (example_training_setup example_inert_wiring example_state
          = Returns VNone
              (final_state
                 (example_training_setup example_inert_wiring
                    example_state))) as Hrun
    by (apply example_training_run_returns; vm_compute; reflexivity).
  split; [exact Hrun|].
  destruct training_setup_threads_no_state as (Hfixed & _).
  exact (proj2 (Hfixed _ _ _ _ _ _ _ _ Hrun)).
Defined.

(** ** Further properties of the two setup functions *)



Lemma missing_first_missing
    (generation_section results_section : gmap string Component) :
  missing_required_key generation_section results_section ->
  exists k,
    first_missing_required generation_section results_section = Some k.
Proof.
  intros Hmissing. unfold first_missing_required.
  destruct (first_missing generation_section required_generation_keys)
    as [k|] eqn:Hfirst; [by exists k|].
  destruct Hmissing as [(k & Hin & Hk)|Hfc].
  - destruct (first_missing_None _ _ Hfirst k Hin) as [c Hc]. congruence.
  - rewrite bool_decide_eq_true_2 by exact Hfc. by eexists.
Qed.

(** When every lookup succeeds there is no first missing key. *)
Lemma found_not_missing
    (generation_section results_section : gmap string Component)
    k lf gouts fc :
  generation_section !! "load_file" = Some lf ->
  mapM (fun k => generation_section !! k) load_metadata_generation_outputs
    = Some gouts ->
  results_section !! "is_format_caption_state" = Some fc ->
  first_missing_required generation_section results_section = Some k ->
  False.
Proof.
  intros Hlf Hg Hfc Hfirst. unfold first_missing_required in Hfirst.
  destruct (first_missing generation_section required_generation_keys)
    as [k0|] eqn:Hk0.
  - apply first_missing_Some in Hk0 as [Hin Hnone].
    apply elem_of_cons in Hin as [->|Hin]; [congruence|].
    apply mapM_Some_1 in Hg.
    apply list_elem_of_lookup in Hin as [i Hi].
    destruct (Forall2_lookup_l _ _ _ _ _ Hg Hi) as (c & _ & Hc).
    congruence.
  - rewrite bool_decide_eq_false_2 in Hfirst by congruence. discriminate.
Qed.

Section MoreProperties.

Variable W : Wiring.
Variable gen_h : GenerationHandlers.
Variables (demo : ObjId) (dit_handler llm_handler dataset_handler : Handler).
Variables (dataset_section generation_section results_section
            training_section : gmap string Component).

Local Abbreviation ctx :=
  {| gwc_demo := demo;
     gwc_dit_handler := dit_handler;
     gwc_llm_handler := llm_handler;
     gwc_dataset_handler := dataset_handler;
     gwc_dataset_section := dataset_section;
     gwc_generation_section := generation_section;
     gwc_results_section := results_section |}.

Local Abbreviation setup :=
  (setup_event_handlers W gen_h demo dit_handler llm_handler dataset_handler
     dataset_section generation_section results_section).

Local Abbreviation tctx :=
  {| twc_demo := demo;
     twc_dit_handler := dit_handler;
     twc_llm_handler := llm_handler;
     twc_training_section := training_section |}.

Local Abbreviation setup_training :=
  (setup_training_event_handlers W demo dit_handler llm_handler
     training_section).


(** X2.  When the helpers return and a looked-up key is missing, the
    [KeyError] names the first missing key in lookup order: [load_file],
    then the output keys of [generation_section] in their declared order,
    then [is_format_caption_state] of [results_section]. *)
Theorem first_missing_key_is_raised st k :
  generation_wiring_returns W ->
  first_missing_required generation_section results_section = Some k ->
  exists st', setup st = Raises (KeyError k) st'.
Proof.
  intros Hret Hfirst. specialize (Hret ctx).
  destruct Hret as (H1 & H2 & H3 & H4 & H5 & H6 & H7 & H8 & H9).
  destruct (setup_event_handlers_steps W gen_h demo dit_handler llm_handler
              dataset_handler dataset_section generation_section
              results_section st)
    as [(aci & aco & w1 & mode & w2 & v3 & w3 & v4 & w4 &
         E1 & E2 & E3 & E4 &
         [(k' & Hk' & Hrun)|(lf & gouts & fc & Hlf & Hg & Hfc & _)])
       |(aci & aco & mode & j & c & w & e & w' & Hj & Hc & Hraise & _)].
  - rewrite Hfirst in Hk'. injection Hk' as <-. by eexists.
  - destruct (found_not_missing _ _ k lf gouts fc Hlf Hg Hfc Hfirst).
  - exfalso.
    assert (j = 0 \/ j = 1 \/ j = 2 \/ j = 3) as [->|[->|[->| ->]]] by lia;
      injection Hc as <-; simpl in Hraise;
      eapply Raises_not_returns; eauto.
Qed.

(** X3.  [setup_event_handlers] does not undo anything when a lookup
    fails: with a required key missing and helpers that return, the run
    raises after the service, mode-output, metadata and mode helpers have
    run, in the world the last of them left, and with nothing registered
    after them. *)
Theorem missing_key_keeps_earlier_registrations st :
  generation_wiring_returns W ->
  missing_required_key generation_section results_section ->
  exists aci aco w1 mode w2 v3 w3 v4 w4 e,
    register_generation_service_handlers W ctx (world st)
      = Returns (aci, aco) w1 /\
    build_mode_ui_outputs W ctx w1 = Returns mode w2 /\
    register_generation_metadata_handlers W ctx aci aco w2 = Returns v3 w3 /\
    register_generation_mode_handlers W ctx mode aci aco w3
      = Returns v4 w4 /\
    setup st =
      Raises e
        {| calls :=
             calls st ++
             [ CallGenerationService ctx;
               CallBuildModeUiOutputs ctx;
               CallGenerationMetadata ctx aci aco;
               CallGenerationMode ctx mode aci aco ];
           world := w4 |}.
Proof.
  intros Hret Hmissing.
  pose proof Hret as Hret'. specialize (Hret ctx).
  destruct Hret as (H1 & H2 & H3 & H4 & H5 & H6 & H7 & H8 & H9).
  destruct (setup_event_handlers_steps W gen_h demo dit_handler llm_handler
              dataset_handler dataset_section generation_section
              results_section st)
    as [(aci & aco & w1 & mode & w2 & v3 & w3 & v4 & w4 &
         E1 & E2 & E3 & E4 &
         [(k' & Hk' & Hrun)|(lf & gouts & fc & Hlf & Hg & Hfc & _)])
       |(aci & aco & mode & j & c & w & e & w' & Hj & Hc & Hraise & _)].
  - by exists aci, aco, w1, mode, w2, v3, w3, v4, w4, (KeyError k').
  - exfalso.
    destruct (missing_first_missing _ _ Hmissing) as [k Hk].
    destruct (found_not_missing _ _ k lf gouts fc Hlf Hg Hfc Hk).
  - exfalso.
    assert (j = 0 \/ j = 1 \/ j = 2 \/ j = 3) as [->|[->|[->| ->]]] by lia;
      injection Hc as <-; simpl in Hraise;
      eapply Raises_not_returns; eauto.
Qed.


(** X5.  [setup_training_event_handlers] looks nothing up itself, so it
    never raises on its own: when a run raises [e], the last call in the
    log is one of its five helper calls, that helper raised [e], and the
    run ends in the world the helper left. *)
Theorem training_setup_exception_origin st e st' :
  setup_training st = Raises e st' ->
  exists c w,
    last (emitted st st') = Some c /\
    c ∈ training_calls tctx /\
    call_raises W c w e (world st').
Proof.
  unfold setup_training_event_handlers, bind, call. simpl.
  destruct (register_training_dataset_load_handler W _ "load_json_btn" _ _ _)
    as [v1 w1|e1 w1] eqn:E1; simpl.
  2:{ intros [= <- <-]. eexists _, _. rewrite emitted_app.
      split_and!; [reflexivity| |exact E1]. apply list_elem_of_here. }
  destruct (register_training_dataset_builder_handlers W _ _)
    as [v2 w2|e2 w2] eqn:E2; simpl.
  2:{ intros [= <- <-]. eexists _, _.
      rewrite <- !(assoc_L (++)), emitted_app.
      split_and!; [reflexivity| |exact E2].
      apply list_elem_of_further, list_elem_of_here. }
  destruct (register_training_dataset_load_handler W _
              "load_existing_dataset_btn" _ _ _)
    as [v3 w3|e3 w3] eqn:E3; simpl.
  2:{ intros [= <- <-]. eexists _, _.
      rewrite <- !(assoc_L (++)), emitted_app.
      split_and!; [reflexivity| |exact E3].
      do 2 apply list_elem_of_further. apply list_elem_of_here. }
  destruct (register_training_preprocess_handler W _ _)
    as [v4 w4|e4 w4] eqn:E4; simpl.
  2:{ intros [= <- <-]. eexists _, _.
      rewrite <- !(assoc_L (++)), emitted_app.
      split_and!; [reflexivity| |exact E4].
      do 3 apply list_elem_of_further. apply list_elem_of_here. }
  destruct (register_training_run_handlers W _ _)
    as [v5 w5|e5 w5] eqn:E5; simpl; [discriminate|].
  intros [= <- <-]. eexists _, _.
  rewrite <- !(assoc_L (++)), emitted_app.
  split_and!; [reflexivity| |exact E5].
  do 4 apply list_elem_of_further. apply list_elem_of_here.
Qed.

(** X6.  With generation helpers that only register, a run of
    [setup_event_handlers] that returns leaves the upload binding and the
    chained binding next to each other in the event graph, after the
    bindings that were there before the call: the upload binding at some
    position [n], on the [load_file] widget, and at position [n + 1] the
    binding that runs [uncheck_auto_for_populated_fields] after
    dependency [n]. *)
Theorem upload_chain_in_event_graph st v st' :
  generation_wiring_all (fun A _ f => ext_preserves only_registers f) W ->
  setup st = Returns v st' ->
  exists n lf outs aci aco,
    length (w_bindings (world st)) <= n /\
    generation_section !! "load_file" = Some lf /\
    w_bindings (world st') !! n
      = Some (upload_binding gen_h llm_handler lf outs) /\
    w_bindings (world st') !! S n = Some (then_binding gen_h n aci aco).
Proof.
  intros Honly H. specialize (Honly ctx).
  destruct Honly as (H1 & H2 & H3 & H4 & H5 & H6 & H7 & H8 & H9).
  destruct (setup_event_handlers_steps W gen_h demo dit_handler llm_handler
              dataset_handler dataset_section generation_section
              results_section st)
    as [(aci & aco & w1 & mode & w2 & v3 & w3 & v4 & w4 &
         E1 & E2 & E3 & E4 &
         [(k & Hk & Hrun)
         |(lf & gouts & fc & Hlf & Hg & Hfc &
           [(v7 & w7 & v8 & w8 & v9 & w9 & v10 & w10 & v11 & w11 &
             _ & _ & E7 & E8 & E9 & E10 & E11 & Hrun)
           |[(e' & [(_ & Hrun)|(_ & _ & Hrun)])
            |(j & c & w & e' & w' & Hj & Hc & Hraise & Hrun)]])])
       |(aci & aco & mode & j & c & w & e' & w' & Hj & Hc & Hraise & Hrun)];
    rewrite Hrun in H; try discriminate; injection H as <- <-.
  apply (ext_only_registers_prefix _ _ _ H1) in E1.
  apply (ext_only_registers_prefix _ _ _ H2) in E2.
  apply (ext_only_registers_prefix _ _ _ (H3 _ _)) in E3.
  apply (ext_only_registers_prefix _ _ _ (H4 _ _ _)) in E4.
  apply (ext_only_registers_prefix _ _ _ H5) in E7.
  apply (ext_only_registers_prefix _ _ _ (H6 _)) in E8.
  apply (ext_only_registers_prefix _ _ _ H7) in E9.
  apply (ext_only_registers_prefix _ _ _ H8) in E10.
  apply (ext_only_registers_prefix _ _ _ H9) in E11.
  simpl in E1, E2, E3, E4, E7, E8, E9, E10, E11.
  exists (length (w_bindings w4)), lf, (gouts ++ [fc]), aci, aco.
  split_and!.
  - apply prefix_length. by repeat (etrans; [eassumption|]).
  - done.
  - simpl.
    do 4 (eapply prefix_lookup_Some; [|eassumption]).
    eapply prefix_lookup_Some; [|exact E7].
    apply lookup_app_l_Some. by apply list_lookup_middle.
  - simpl.
    do 4 (eapply prefix_lookup_Some; [|eassumption]).
    eapply prefix_lookup_Some; [|exact E7].
    apply list_lookup_middle. rewrite length_app. simpl. lia.
Qed.


End MoreProperties.

(** ** The further properties at the example inputs *)


Lemma first_missing_key_is_raised_witness :
  (generation_wiring_returns example_inert_wiring /\
   first_missing_required example_partial_generation_section
     example_results_section = Some "task_type"%string) /\
  exists st',
    setup_event_handlers example_inert_wiring example_gen_h 0 1 2 3 ∅
      example_partial_generation_section example_results_section
      example_state
    = Raises (KeyError "task_type") st'.
Proof.
  pose proof example_inert_wiring_generation_returns as Hret.
  assert (first_missing_required example_partial_generation_section
            example_results_section = Some "task_type"%string) as Hfirst
    by (vm_compute; reflexivity).
  split; [by split|].
  exact (first_missing_key_is_raised example_inert_wiring example_gen_h
           0 1 2 3 ∅ example_partial_generation_section
           example_results_section example_state "task_type"
           Hret Hfirst).
Defined.

Lemma missing_key_keeps_earlier_registrations_witness :
  (generation_wiring_returns example_inert_wiring /\
   missing_required_key example_partial_generation_section
     example_results_section) /\
  exists e st',
    setup_event_handlers example_inert_wiring example_gen_h 0 1 2 3 ∅
      example_partial_generation_section example_results_section
      example_state
    = Raises e st' /\
    length (emitted example_state st') = 4.
Proof.
  pose proof example_inert_wiring_generation_returns as Hret.
  assert (missing_required_key example_partial_generation_section
            example_results_section) as Hmissing.
  { left. exists "task_type"%string. split; [|vm_compute; reflexivity].
    apply list_elem_of_further, list_elem_of_here. }
  split; [by split|].
  destruct (missing_key_keeps_earlier_registrations example_inert_wiring
              example_gen_h 0 1 2 3 ∅ example_partial_generation_section
              example_results_section example_state Hret Hmissing)
    as (aci & aco & w1 & mode & w2 & v3 & w3 & v4 & w4 & e &
        _ & _ & _ & _ & Hrun).
  eexists _, _. split; [exact Hrun|].
  by rewrite emitted_app.
Defined.



Lemma training_setup_exception_origin_witness :
  setup_training_event_handlers example_failing_wiring 0 1 2 ∅
    example_state
  = Raises (RuntimeError "dataset unavailable")
      (final_state
         (setup_training_event_handlers example_failing_wiring 0 1 2 ∅
            example_state)) /\
  exists c w,
    last (emitted example_state
            (final_state
               (setup_training_event_handlers example_failing_wiring
                  0 1 2 ∅ example_state))) = Some c /\
    call_raises example_failing_wiring c w
      (RuntimeError "dataset unavailable")
      (world
         (final_state
            (setup_training_event_handlers example_failing_wiring 0 1 2 ∅
               example_state))).
Proof.
  assert (setup_training_event_handlers example_failing_wiring 0 1 2 ∅
            example_state
          = Raises (RuntimeError "dataset unavailable")
              (final_state
                 (setup_training_event_handlers example_failing_wiring
                    0 1 2 ∅ example_state))) as Hrun
    by reflexivity.
  split; [exact Hrun|].
  destruct (training_setup_exception_origin example_failing_wiring 0 1 2 ∅
              example_state _ _ Hrun) as (c & w & Hlast & _ & Hraise).
  by exists c, w.
Defined.

Lemma upload_chain_in_event_graph_witness :
  (generation_wiring_all (fun A _ f => ext_preserves only_registers f)
     example_inert_wiring /\
   example_generation_setup example_inert_wiring example_state
   = Returns VNone
       (final_state
          (example_generation_setup example_inert_wiring example_state))) /\
  exists n lf outs aci aco,
    w_bindings
      (world (final_state
                (example_generation_setup example_inert_wiring
                   example_state))) !! n
      = Some (upload_binding example_gen_h 2 lf outs) /\
    w_bindings
      (world (final_state
                (example_generation_setup example_inert_wiring
                   example_state))) !! S n
      = Some (then_binding example_gen_h n aci aco).
Proof.
  pose proof (proj1 example_inert_wiring_only_registers) as Honly.
  pose proof example_generation_run_returns as Hrun.
  split; [by split|].
  destruct (upload_chain_in_event_graph example_inert_wiring example_gen_h
              0 1 2 3 ∅ example_generation_section example_results_section
              example_state _ _ Honly Hrun)
    as (n & lf & outs & aci & aco & _ & _ & Hup & Hthen).
  exists n, lf, outs, aci, aco. split; [exact Hup|exact Hthen].
Defined.

